(** * StreamCore API: the user controller and its session-token lifecycle

    A shallow embedding of [src/controllers/user.controller.js]: the
    handlers [registerUser], [loginUser], [logoutUser],
    [refreshAccessToken] and [changeCurrentPassword], together with
    [generateAccessAndRefreshTokens], run in a small state-and-exception
    monad over the user collection.

    JavaScript values are modelled as follows.
    - A string that may be [undefined] is an [option string].
    - A thrown exception is [Threw e]; [try { .. } catch (error) { .. }]
      is [try_catch]. The [asyncHandler] wrapper only forwards what the
      handler throws, so a handler's outcome is what the client gets.
    - Each request reads the server clock once ([now], in seconds).
    - The user collection is a finite map from [_id] to the stored
      document; every call made to it is also appended to a call log, so
      that "the handler reached the database" can be stated.
    - A JSON web token is modelled symbolically: the payload together
      with the secret that signed it. Two tokens are textually equal
      exactly when they are equal as terms. *)

From stdpp Require Import gmap strings list fin_maps.
From Stdlib Require Import ZArith Ascii String.

Open Scope Z_scope.
Open Scope string_scope.

Abbreviation ObjectId := N (only parsing).

(* ===================================================================== *)
(** ** Strings: the two [String.prototype] methods the controller calls  *)
(* ===================================================================== *)

(** Strings are the UTF-8 bytes of the text. The white space of the
    ASCII range: TAB, LF, VT, FF, CR and SPACE. *)
Definition is_whitespace (c : ascii) : bool :=
  match N_of_ascii c with
  | 9%N | 10%N | 11%N | 12%N | 13%N | 32%N => true
  | _ => false
  end.

(** The white space [trim] removes is that of the language: the six
    characters above and, beyond ASCII, U+00A0, U+1680, U+2000 to U+200A,
    U+2028, U+2029, U+202F, U+205F, U+3000 and U+FEFF. Those are two or
    three bytes long; [Partial] is what has been read of one of them. *)
Inductive Partial : Type :=
| Fresh
| Read_C2
| Read_E1
| Read_E1_9A
| Read_E2
| Read_E2_80
| Read_E2_81
| Read_E3
| Read_E3_80
| Read_EF
| Read_EF_BB.

Inductive Step : Type :=
| Whitespace
| Pending (p : Partial)
| Other.

(** Reading one more byte: it ends a white-space character, continues
    one, or shows that the character being read is not white space. *)
Definition step (p : Partial) (c : ascii) : Step :=
  match p, N_of_ascii c with
  | Fresh, 194%N => Pending Read_C2
  | Fresh, 225%N => Pending Read_E1
  | Fresh, 226%N => Pending Read_E2
  | Fresh, 227%N => Pending Read_E3
  | Fresh, 239%N => Pending Read_EF
  | Fresh, _ => if is_whitespace c then Whitespace else Other
  | Read_C2, 160%N => Whitespace
  | Read_E1, 154%N => Pending Read_E1_9A
  | Read_E1_9A, 128%N => Whitespace
  | Read_E2, 128%N => Pending Read_E2_80
  | Read_E2, 129%N => Pending Read_E2_81
  | Read_E2_80, (128%N | 129%N | 130%N | 131%N | 132%N | 133%N | 134%N | 135%N
                 | 136%N | 137%N | 138%N | 168%N | 169%N | 175%N) => Whitespace
  | Read_E2_81, 159%N => Whitespace
  | Read_E3, 128%N => Pending Read_E3_80
  | Read_E3_80, 128%N => Whitespace
  | Read_EF, 187%N => Pending Read_EF_BB
  | Read_EF_BB, 191%N => Whitespace
  | _, _ => Other
  end.

(** Skipping leading white space: [keep] is the string from the start
    of the character being read, which is what remains when that
    character turns out not to be white space. *)
Fixpoint skip_whitespace (p : Partial) (keep : string) (s : string) : string :=
  match s with
  | EmptyString => keep
  | String c r =>
      match step p c with
      | Whitespace => skip_whitespace Fresh r r
      | Pending p' => skip_whitespace p' keep r
      | Other => keep
      end
  end.

Definition trimStart (s : string) : string := skip_whitespace Fresh s s.

(** The string is cut at the first place from which only white space
    follows. *)
Fixpoint trimEnd (s : string) : string :=
  match s with
  | EmptyString => EmptyString
  | String c r =>
      if String.eqb (trimStart (String c r)) EmptyString
      then EmptyString
      else String c (trimEnd r)
  end.

Definition trim (s : string) : string := trimEnd (trimStart s).

(** [toLowerCase] on the letters A to Z. The language lowers other
    letters too, so what is stated of a lowered string is stated for
    strings of ASCII characters, on which the two agree. *)
Definition lower_ascii (c : ascii) : ascii :=
  let n := N_of_ascii c in
  if ((65 <=? n) && (n <=? 90))%N then ascii_of_N (n + 32) else c.

Fixpoint toLowerCase (s : string) : string :=
  match s with
  | EmptyString => EmptyString
  | String c r => String (lower_ascii c) (toLowerCase r)
  end.

(** Every character of the string is an ASCII character. *)
Fixpoint is_ascii (s : string) : bool :=
  match s with
  | EmptyString => true
  | String c r => (N_of_ascii c <? 128)%N && is_ascii r
  end.

(** U+00A0, the no-break space, as its two bytes. *)
Definition no_break_space : string :=
  String (ascii_of_N 194) (String (ascii_of_N 160) EmptyString).


(** JavaScript truthiness of a value that is a string or [undefined]. *)
Definition truthy (v : option string) : bool :=
  match v with
  | None => false
  | Some s => negb (String.eqb s "")
  end.

(* ===================================================================== *)
(** ** Exceptions                                                        *)
(* ===================================================================== *)

(** [ApiError] is the controller's own error class (status code and
    message). The other constructors are the errors its collaborators
    throw: the two error classes of the token library, a [TypeError] of
    the language, and a failure of the database driver or of the
    hashing library. *)
Inductive Exn : Type :=
| ApiError (statusCode : Z) (message : string)
| TokenExpiredError (message : string)
| JsonWebTokenError (message : string)
| TypeError (message : string)
| MongoError (message : string)
| ValidationError (message : string)
| BcryptError (message : string).

(** [error?.message] *)
Definition exn_message (e : Exn) : string :=
  match e with
  | ApiError _ m | TokenExpiredError m | JsonWebTokenError m
  | TypeError m | MongoError m | ValidationError m | BcryptError m => m
  end.

(* ===================================================================== *)
(** ** JSON web tokens                                                   *)
(* ===================================================================== *)

(** The signed payload: the user identifier claim, the issue time and
    the expiry time (seconds on the server clock). *)
Record Payload : Type := mkPayload {
  claim_id : ObjectId;
  iat : Z;
  exp : Z
}.

(** A token is either a payload signed under a secret, or a string that
    is no token at all. [Garbage ""] is the empty string. *)
Inductive Token : Type :=
| Signed (secret : string) (payload : Payload)
| Garbage (text : string).

#[global] Instance Payload_eq_dec : EqDecision Payload.
Proof. solve_decision. Defined.

#[global] Instance Token_eq_dec : EqDecision Token.
Proof. solve_decision. Defined.

(** Truthiness of a cookie or body field holding a token string. *)
Definition token_truthy (v : option Token) : bool :=
  match v with
  | None => false
  | Some (Garbage s) => negb (String.eqb s "")
  | Some (Signed _ _) => true
  end.

(** [a || b] on two such fields. *)
Definition or_else (a b : option Token) : option Token :=
  if token_truthy a then a else b.

(** [jwt.sign({ _id }, secret, { expiresIn })] at clock reading [now]. *)
Definition jwt_sign (now : Z) (id : ObjectId) (secret : string) (expiresIn : Z) : Token :=
  Signed secret {| claim_id := id; iat := now; exp := now + expiresIn |}.

(** [jwt.verify(token, secret)] at clock reading [now]: the signature is
    checked first, then the expiry. *)
Definition jwt_verify (now : Z) (token : Token) (secret : string) : Exn + Payload :=
  match token with
  | Garbage _ => inl (JsonWebTokenError "jwt malformed")
  | Signed s p =>
      if String.eqb s secret then
        if (exp p <=? now)%Z then inl (TokenExpiredError "jwt expired") else inr p
      else inl (JsonWebTokenError "invalid signature")
  end.

(** The user a token names, whatever it was signed with. *)
Definition token_subject (t : Token) : option ObjectId :=
  match t with
  | Signed _ p => Some (claim_id p)
  | Garbage _ => None
  end.

(* ===================================================================== *)
(** ** Documents and the world                                           *)
(* ===================================================================== *)

(** The stored user document, keyed by its [_id] in the collection. *)
Record User : Type := mkUser {
  username : string;
  email : string;
  fullName : string;
  avatar : string;
  coverImage : string;
  password : string;
  refreshToken : option Token;
  watchHistory : list ObjectId
}.

Definition set_refreshToken (t : option Token) (u : User) : User :=
  {| username := username u; email := email u; fullName := fullName u;
     avatar := avatar u; coverImage := coverImage u; password := password u;
     refreshToken := t; watchHistory := watchHistory u |}.

Definition set_password (p : string) (u : User) : User :=
  {| username := username u; email := email u; fullName := fullName u;
     avatar := avatar u; coverImage := coverImage u; password := p;
     refreshToken := refreshToken u; watchHistory := watchHistory u |}.

(** A document as sent to the client: field name to value. *)
Inductive Value : Type :=
| VString (s : string)
| VToken (t : Token)
| VId (i : ObjectId)
| VIds (l : list ObjectId).

Abbreviation Doc := (gmap string Value).

(** The document of a [$set] as a handler writes it: each field with the
    value given for it, [None] where the handler wrote [undefined]. *)
Abbreviation SetDocument := (list (string * option Value)).

(** Giving a field of a user document a value. *)
Definition assign (field : string) (v : Value) (u : User) : User :=
  match v with
  | VToken t =>
      if String.eqb field "refreshToken" then set_refreshToken (Some t) u else u
  | VString text =>
      if String.eqb field "password" then set_password text u
      else if String.eqb field "fullName" then
        {| username := username u; email := email u; fullName := text;
           avatar := avatar u; coverImage := coverImage u; password := password u;
           refreshToken := refreshToken u; watchHistory := watchHistory u |}
      else if String.eqb field "email" then
        {| username := username u; email := text; fullName := fullName u;
           avatar := avatar u; coverImage := coverImage u; password := password u;
           refreshToken := refreshToken u; watchHistory := watchHistory u |}
      else if String.eqb field "avatar" then
        {| username := username u; email := email u; fullName := fullName u;
           avatar := text; coverImage := coverImage u; password := password u;
           refreshToken := refreshToken u; watchHistory := watchHistory u |}
      else if String.eqb field "coverImage" then
        {| username := username u; email := email u; fullName := fullName u;
           avatar := avatar u; coverImage := text; password := password u;
           refreshToken := refreshToken u; watchHistory := watchHistory u |}
      else u
  | _ => u
  end.

(** What the object-document mapper sends for a [$set]: before the
    update goes out it removes the keys whose value is [undefined]
    (Mongoose does so from version 6 on), so only the keys that were
    given a value are part of it. *)
Definition cast_update (d : SetDocument) : list (string * Value) :=
  omap (fun kv => match snd kv with
                  | Some v => Some (fst kv, v)
                  | None => None
                  end) d.

(** The update a [$set] document makes to a stored document. *)
Definition apply_set (d : SetDocument) (u : User) : User :=
  foldl (fun acc kv => assign (fst kv) (snd kv) acc) u (cast_update d).

(** The argument of [User.create]. *)
Record CreateDoc : Type := mkCreateDoc {
  new_fullName : option string;
  new_avatar : string;
  new_coverImage : string;
  new_email : option string;
  new_password : option string;
  new_username : string
}.

(** Calls the handlers make to the user collection. *)
Inductive StoreCall : Type :=
| CallFindOne (email username : option string)
| CallFindById (id : ObjectId)
| CallSave (id : ObjectId)
| CallFindByIdAndUpdate (id : ObjectId)
| CallCreate (doc : CreateDoc).

Record World : Type := mkWorld {
  users : gmap N User;
  calls : list StoreCall
}.

(** What a request finds around it: the clock, whether the collection
    accepts writes, and the identifier the driver gives a new document. *)
Record Env : Type := mkEnv {
  now : Z;
  store_writable : bool;
  new_id : ObjectId
}.

(* ===================================================================== *)
(** ** The handler monad                                                 *)
(* ===================================================================== *)

Inductive Outcome (A : Type) : Type :=
| Threw (e : Exn)
| Returned (a : A).
Arguments Threw {A} e.
Arguments Returned {A} a.

Definition Handler (A : Type) : Type := World -> Outcome A * World.

#[global] Instance Handler_ret : MRet Handler :=
  fun A a w => (Returned a, w).

#[global] Instance Handler_bind : MBind Handler :=
  fun A B f m w =>
    match m w with
    | (Threw e, w') => (Threw e, w')
    | (Returned a, w') => f a w'
    end.

Definition throw {A : Type} (e : Exn) : Handler A :=
  fun w => (Threw e, w).

Definition try_catch {A : Type} (body : Handler A) (handler : Exn -> Handler A) : Handler A :=
  fun w =>
    match body w with
    | (Threw e, w') => handler e w'
    | (Returned a, w') => (Returned a, w')
    end.

Definition record_call (c : StoreCall) : Handler unit :=
  fun w => (Returned tt, {| users := users w; calls := calls w ++ [c] |}).

Definition get_users : Handler (gmap N User) :=
  fun w => (Returned (users w), w).

Definition put_users (m : gmap N User) : Handler unit :=
  fun w => (Returned tt, {| users := m; calls := calls w |}).

(* ===================================================================== *)
(** ** Collaborators                                                     *)
(* ===================================================================== *)

(** What the controller is configured with and calls out to: the four
    [process.env] entries of the token issuer, the password hashing
    library, and the media upload helper (given a local path it returns
    the public URL of the stored file, or [null]). *)
Class Collaborators : Type := {
  ACCESS_TOKEN_SECRET : string;
  REFRESH_TOKEN_SECRET : string;
  ACCESS_TOKEN_EXPIRY : Z;
  REFRESH_TOKEN_EXPIRY : Z;
  bcrypt_hash : string -> string;
  bcrypt_compare : string -> string -> bool;
  uploadOnCloudinary : option string -> option string
}.

(* ===================================================================== *)
(** ** Responses and requests                                            *)
(* ===================================================================== *)

Inductive Data : Type :=
| DataEmpty
| DataUser (user : option Doc)
| DataLogin (user : option Doc) (accessToken refreshToken : Token)
| DataTokens (accessToken refreshToken : Token).

Record ApiResponse : Type := mkApiResponse {
  statusCode : Z;
  data : Data;
  message : string
}.

Record CookieOptions : Type := mkCookieOptions {
  httpOnly : bool;
  secure : bool;
  sameSite : string
}.

Inductive CookieOp : Type :=
| SetCookie (name : string) (value : Token) (options : CookieOptions)
| ClearCookie (name : string) (options : CookieOptions).

Record Response : Type := mkResponse {
  status : Z;
  cookies : list CookieOp;
  json : ApiResponse
}.

Record RegisterRequest : Type := mkRegisterRequest {
  reg_fullName : option string;
  reg_email : option string;
  reg_username : option string;
  reg_password : option string;
  reg_avatar_path : option string;
  reg_coverImage_path : option string
}.

Record LoginRequest : Type := mkLoginRequest {
  login_email : option string;
  login_username : option string;
  login_password : option string
}.

Record RefreshRequest : Type := mkRefreshRequest {
  cookies_refreshToken : option Token;
  body_refreshToken : option Token
}.

Record ChangePasswordRequest : Type := mkChangePasswordRequest {
  req_user_id : ObjectId;
  oldpassword : option string;
  newPassword : option string
}.

(** The token a refresh request presents:
    [req.cookies?.refreshToken || req.body?.refreshToken]. *)
Definition incoming (req : RefreshRequest) : option Token :=
  or_else (cookies_refreshToken req) (body_refreshToken req).

(** The refresh token a response hands to the client, if it hands one. *)
Definition issued_refreshToken (r : Response) : option Token :=
  match data (json r) with
  | DataLogin _ _ t | DataTokens _ t => Some t
  | _ => None
  end.

(** The refresh token a run of a handler hands to the client: none when
    the handler threw. *)
Definition handed_out {S : Type} (run : Outcome Response * S) : option Token :=
  match fst run with
  | Returned r => issued_refreshToken r
  | Threw _ => None
  end.

(** The error a run of a handler ended with, if it threw. *)
Definition thrown {A S : Type} (run : Outcome A * S) : option Exn :=
  match fst run with
  | Threw e => Some e
  | Returned _ => None
  end.

(** The user projection a response carries, if it carries one. *)
Definition returned_user (r : Response) : option Doc :=
  match data (json r) with
  | DataLogin u _ _ | DataUser u => u
  | _ => None
  end.

(* ===================================================================== *)
(** ** The user model                                                    *)
(* ===================================================================== *)

(** [doc.toObject()]: an absent refresh token is an absent key. *)
Definition toObject (id : ObjectId) (u : User) : Doc :=
  let d : Doc :=
    <["_id" := VId id]>
    (<["username" := VString (username u)]>
    (<["email" := VString (email u)]>
    (<["fullName" := VString (fullName u)]>
    (<["avatar" := VString (avatar u)]>
    (<["coverImage" := VString (coverImage u)]>
    (<["password" := VString (password u)]>
    (<["watchHistory" := VIds (watchHistory u)]> ∅))))))) in
  match refreshToken u with
  | Some t => <["refreshToken" := VToken t]> d
  | None => d
  end.

(** Splitting a projection string at its spaces. *)
Fixpoint words_from (cur : string) (s : string) : list string :=
  match s with
  | EmptyString => if String.eqb cur "" then [] else [cur]
  | String c r =>
      if Ascii.eqb c " "%char
      then (if String.eqb cur "" then words_from "" r else cur :: words_from "" r)
      else words_from (cur ++ String c EmptyString) r
  end.

Definition words (s : string) : list string := words_from "" s.

(** [query.select(spec)] for the exclusion form the controller uses:
    every word [-field] of [spec] removes [field] from the document. *)
Definition select (spec : string) (d : Doc) : Doc :=
  foldr (fun w acc =>
           match w with
           | String "-"%char field => delete field acc
           | _ => acc
           end) d (words spec).

Section Model.
Context {C : Collaborators}.

(** The filter [{ $or: [{ email }, { username }] }]: a stored document
    matches when one of the two given values equals its field; an
    [undefined] value equals no stored string. *)
Definition matches_or (e n : option string) (u : User) : bool :=
  bool_decide (e = Some (email u)) || bool_decide (n = Some (username u)).

(** The first stored document the filter matches, with its [_id]. *)
Definition first_match (e n : option string) (m : gmap N User) : option (ObjectId * User) :=
  List.find (fun iu => matches_or e n (snd iu)) (map_to_list m).

Definition findOne (e n : option string) : Handler (option (ObjectId * User)) :=
  record_call (CallFindOne e n);;
  m ← get_users;
  mret (first_match e n m).

Definition findById (id : ObjectId) : Handler (option User) :=
  record_call (CallFindById id);;
  m ← get_users;
  mret (m !! id).

(** [user.save({ validateBeforeSave: false })] for the in-memory
    document [u] of identifier [id]. *)
Definition save (env : Env) (id : ObjectId) (u : User) : Handler unit :=
  record_call (CallSave id);;
  if store_writable env
  then m ← get_users; put_users (<[id := u]> m)
  else throw (MongoError "write failed").

(** [User.findByIdAndUpdate(id, { $set: .. }, { new: true })], the
    [$set] given as the function it applies to the stored document. *)
Definition findByIdAndUpdate (env : Env) (id : ObjectId) (set : User -> User)
  : Handler (option User) :=
  record_call (CallFindByIdAndUpdate id);;
  if store_writable env
  then m ← get_users;
       put_users (alter set id m);;
       mret (alter set id m !! id)
  else throw (MongoError "write failed").

(** Modelled from the spec: the schema method [generateAccessToken] of
    models/user.model.js, which is not among the sources. The Token
    Issuer signs the user identifier under the access secret with the
    access expiry; signing is a function of claims, secret and clock. *)
Definition generateAccessToken (env : Env) (id : ObjectId) : Token :=
  jwt_sign (now env) id ACCESS_TOKEN_SECRET ACCESS_TOKEN_EXPIRY.

(** Modelled from the spec: the schema method [generateRefreshToken] of
    models/user.model.js, which is not among the sources. As above,
    under the refresh secret with the refresh expiry. *)
Definition generateRefreshToken (env : Env) (id : ObjectId) : Token :=
  jwt_sign (now env) id REFRESH_TOKEN_SECRET REFRESH_TOKEN_EXPIRY.

(** Modelled from the spec: the schema method [isPasswordCorrect] of
    models/user.model.js, which is not among the sources. The
    Credential Verifier compares a plaintext with the stored hash and
    answers with a boolean; the hashing library rejects a missing
    plaintext. *)
Definition isPasswordCorrect (u : User) (plain : option string) : Handler bool :=
  match plain with
  | Some p => mret (bcrypt_compare p (password u))
  | None => throw (BcryptError "data and hash arguments required")
  end.

(** Modelled from the spec: the pre-save hook of models/user.model.js,
    which is not among the sources. A changed password is re-hashed
    before it is persisted. *)
Definition pre_save_password (plain : option string) : Handler string :=
  match plain with
  | Some p => mret (bcrypt_hash p)
  | None => throw (BcryptError "data and salt arguments required")
  end.

(** Modelled from the spec: [User.create] under the schema of
    models/user.model.js, which is not among the sources. Every
    attribute but the cover image is required, email and username are
    unique, and the password is stored hashed. *)
Definition create (env : Env) (d : CreateDoc) : Handler (ObjectId * User) :=
  record_call (CallCreate d);;
  match new_fullName d, new_email d, new_password d with
  | Some fn, Some em, Some pw =>
      m ← get_users;
      if negb (store_writable env) then throw (MongoError "write failed")
      else if bool_decide (is_Some (m !! new_id env))
              || existsb (fun iu => matches_or (Some em) (Some (new_username d)) (snd iu))
                         (map_to_list m)
      then throw (MongoError "E11000 duplicate key error")
      else
        let u := {| username := new_username d; email := em; fullName := fn;
                    avatar := new_avatar d; coverImage := new_coverImage d;
                    password := bcrypt_hash pw; refreshToken := None;
                    watchHistory := [] |} in
        put_users (<[new_id env := u]> m);;
        mret (new_id env, u)
  | _, _, _ => throw (ValidationError "User validation failed")
  end.

(* =================================================================== *)
(** ** The controller                                                  *)
(* =================================================================== *)

Definition cookie_options : CookieOptions :=
  {| httpOnly := true; secure := false; sameSite := "lax" |}.

Definition generateAccessAndRefreshTokens (env : Env) (userId : ObjectId)
  : Handler (Token * Token) :=
  try_catch
    (user ← findById userId;
     match user with
     | None => throw (TypeError "Cannot read properties of null (reading 'generateAccessToken')")
     | Some u =>
         let accessToken := generateAccessToken env userId in
         let refreshToken := generateRefreshToken env userId in
         save env userId (set_refreshToken (Some refreshToken) u);;
         mret (accessToken, refreshToken)
     end)
    (fun error => throw (ApiError 500 "Something went wrong while generating tokens")).

(** [f?.trim() === ""] *)
Definition blank (f : option string) : bool :=
  match f with
  | None => false
  | Some s => String.eqb (trim s) ""
  end.

(** A field the check lets through: it is absent, or it has content
    other than white space. *)
Definition absent_or_filled (f : option string) : Prop :=
  match f with
  | None => True
  | Some s => trim s <> ""
  end.

Definition registerUser (env : Env) (req : RegisterRequest) : Handler Response :=
  let fullName := reg_fullName req in
  let email := reg_email req in
  let username := reg_username req in
  let password := reg_password req in
  if existsb blank [fullName; email; username; password]
  then throw (ApiError 400 "All fields are required")
  else
    existingUser ← findOne email username;
    if bool_decide (is_Some existingUser)
    then throw (ApiError 409 "User with email/username already exists")
    else
      let avatarLocalPath := reg_avatar_path req in
      if negb (truthy avatarLocalPath)
      then throw (ApiError 400 "Avatar file is required")
      else
        let coverImageLocalPath := reg_coverImage_path req in
        let avatar := uploadOnCloudinary avatarLocalPath in
        let coverImage := uploadOnCloudinary coverImageLocalPath in
        match avatar with
        | None => throw (ApiError 400 "Avatar upload failed")
        | Some avatar_url =>
            match username with
            | None =>
                throw (TypeError "Cannot read properties of undefined (reading 'toLowerCase')")
            | Some name =>
                user ← create env
                    {| new_fullName := fullName;
                       new_avatar := avatar_url;
                       new_coverImage := default "" coverImage;
                       new_email := email;
                       new_password := password;
                       new_username := toLowerCase name |};
                found ← findById (fst user);
                let createdUser :=
                  select "-password -refreshToken" <$> (toObject (fst user) <$> found) in
                mret {| status := 201; cookies := [];
                        json := {| statusCode := 200; data := DataUser createdUser;
                                   message := "User registered successfully" |} |}
            end
        end.

Definition loginUser (env : Env) (req : LoginRequest) : Handler Response :=
  let email := login_email req in
  let username := login_username req in
  let password := login_password req in
  if (negb (truthy email) && negb (truthy username)) || negb (truthy password)
  then throw (ApiError 400 "Email/Username and password required")
  else
    user ← findOne email username;
    match user with
    | None => throw (ApiError 404 "User does not exist")
    | Some (user_id, u) =>
        isPasswordValid ← isPasswordCorrect u password;
        if negb isPasswordValid
        then throw (ApiError 401 "Invalid credentials")
        else
          '(accessToken, refreshToken) ← generateAccessAndRefreshTokens env user_id;
          found ← findById user_id;
          let loggedInUser :=
            select "-password -refreshToken" <$> (toObject user_id <$> found) in
          mret {| status := 200;
                  cookies := [SetCookie "accessToken" accessToken cookie_options;
                              SetCookie "refreshToken" refreshToken cookie_options];
                  json := {| statusCode := 200;
                             data := DataLogin loggedInUser accessToken refreshToken;
                             message := "User logged in successfully" |} |}
    end.

(** [req.user._id] is the identity the authorization middleware
    resolved before the handler runs. The update is
    [{ $set: { refreshToken: undefined } }]. *)
Definition logoutUser (env : Env) (req_user : ObjectId) : Handler Response :=
  findByIdAndUpdate env req_user (apply_set [("refreshToken", None)]);;
  mret {| status := 200;
          cookies := [ClearCookie "accessToken" cookie_options;
                      ClearCookie "refreshToken" cookie_options];
          json := {| statusCode := 200; data := DataEmpty;
                     message := "User logged out successfully" |} |}.

(** [error?.message || "Invalid refresh token"] *)
Definition message_or_default (e : Exn) : string :=
  if String.eqb (exn_message e) "" then "Invalid refresh token" else exn_message e.

Definition refreshAccessToken (env : Env) (req : RefreshRequest) : Handler Response :=
  let incomingRefreshToken := incoming req in
  if negb (token_truthy incomingRefreshToken)
  then throw (ApiError 401 "No refresh token found")
  else
    match incomingRefreshToken with
    | None => throw (ApiError 401 "No refresh token found")
    | Some incoming =>
        try_catch
          (match jwt_verify (now env) incoming REFRESH_TOKEN_SECRET with
           | inl error => throw error
           | inr decodedToken =>
               user ← findById (claim_id decodedToken);
               match user with
               | None => throw (ApiError 401 "Invalid refresh token")
               | Some u =>
                   if bool_decide (Some incoming ≠ refreshToken u)
                   then throw (ApiError 401 "Expired or invalid refresh token")
                   else
                     '(accessToken, refreshToken) ←
                       generateAccessAndRefreshTokens env (claim_id decodedToken);
                     mret {| status := 200;
                             cookies := [SetCookie "accessToken" accessToken cookie_options;
                                         SetCookie "refreshToken" refreshToken cookie_options];
                             json := {| statusCode := 200;
                                        data := DataTokens accessToken refreshToken;
                                        message := "Access token refreshed" |} |}
               end
           end)
          (fun error => throw (ApiError 401 (message_or_default error)))
    end.

(** The response [refreshAccessToken] sends with a new pair. *)
Definition tokens_response (accessToken refreshToken : Token) : Response :=
  {| status := 200;
     cookies := [SetCookie "accessToken" accessToken cookie_options;
                 SetCookie "refreshToken" refreshToken cookie_options];
     json := {| statusCode := 200;
                data := DataTokens accessToken refreshToken;
                message := "Access token refreshed" |} |}.

(** [req.user._id] is again the identity resolved by the authorization
    middleware, which guards this route. *)
Definition changeCurrentPassword (env : Env) (req : ChangePasswordRequest)
  : Handler Response :=
  user ← findById (req_user_id req);
  match user with
  | None =>
      throw (TypeError "Cannot read properties of null (reading 'isPasswordCorrect')")
  | Some u =>
      isPasswordCorrect_ ← isPasswordCorrect u (oldpassword req);
      if negb isPasswordCorrect_
      then throw (ApiError 400 "Invalid old password.")
      else
        hashed ← pre_save_password (newPassword req);
        save env (req_user_id req) (set_password hashed u);;
        mret {| status := 200; cookies := [];
                json := {| statusCode := 200; data := DataEmpty;
                           message := "Password changed successfully." |} |}
  end.

End Model.

(* ===================================================================== *)
(** ** A concrete deployment                                             *)
(* ===================================================================== *)

(** A configuration on which the handlers can be run: two secrets, a
    fifteen-minute access token, a ten-day refresh token, a hash that
    tags the plaintext, and an upload helper that stores any named file. *)
Module Demo.

Definition hash (p : string) : string := "$2b$10$" ++ p.

Definition upload (path : option string) : option string :=
  match path with
  | Some p => if String.eqb p "" then None else Some ("https://res.cloudinary.com/" ++ p)
  | None => None
  end.

Definition deployment : Collaborators :=
  {| ACCESS_TOKEN_SECRET := "access-secret";
     REFRESH_TOKEN_SECRET := "refresh-secret";
     ACCESS_TOKEN_EXPIRY := 900;
     REFRESH_TOKEN_EXPIRY := 864000;
     bcrypt_hash := hash;
     bcrypt_compare := fun p h => String.eqb (hash p) h;
     uploadOnCloudinary := upload |}.

Definition alice_id : ObjectId := 7%N.

(** alice, registered and not logged in. *)
Definition alice : User :=
  {| username := "alice"; email := "alice@example.com"; fullName := "Alice";
     avatar := "https://res.cloudinary.com/a.png"; coverImage := "";
     password := hash "wonderland"; refreshToken := None; watchHistory := [] |}.

Definition world0 : World := {| users := {[ alice_id := alice ]}; calls := [] |}.

Definition at_time (t : Z) : Env :=
  {| now := t; store_writable := true; new_id := 8%N |}.

Definition store_down (t : Z) : Env :=
  {| now := t; store_writable := false; new_id := 8%N |}.

Definition alice_login : LoginRequest :=
  {| login_email := None; login_username := Some "alice";
     login_password := Some "wonderland" |}.

Definition present (t : Token) : RefreshRequest :=
  {| cookies_refreshToken := Some t; body_refreshToken := None |}.

(** The refresh token a login of alice at clock reading [t] issues. *)
Definition alice_token (t : Z) : Token :=
  Signed "refresh-secret" {| claim_id := alice_id; iat := t; exp := t + 864000 |}.

(** alice holding the session opened at clock reading [t]. *)
Definition logged_in (t : Z) : World :=
  {| users := {[ alice_id := set_refreshToken (Some (alice_token t)) alice ]};
     calls := [] |}.

Definition alice_wrong_password : LoginRequest :=
  {| login_email := None; login_username := Some "alice";
     login_password := Some "looking-glass" |}.

Definition alice_new_password : ChangePasswordRequest :=
  {| req_user_id := alice_id; oldpassword := Some "wonderland";
     newPassword := Some "looking-glass" |}.

(** A registration whose body has no [fullName]. *)
Definition bob_without_fullName : RegisterRequest :=
  {| reg_fullName := None; reg_email := Some "bob@example.com";
     reg_username := Some "Bob"; reg_password := Some "builder";
     reg_avatar_path := Some "bob.png"; reg_coverImage_path := None |}.

(** A registration whose body has no [username]. *)
Definition bob_without_username : RegisterRequest :=
  {| reg_fullName := Some "Bob"; reg_email := Some "bob@example.com";
     reg_username := None; reg_password := Some "builder";
     reg_avatar_path := Some "bob.png"; reg_coverImage_path := None |}.

Definition login (t : Z) : Handler Response :=
  loginUser (C := deployment) (at_time t) alice_login.

Definition refresh (t : Z) (tok : Token) : Handler Response :=
  refreshAccessToken (C := deployment) (at_time t) (present tok).

End Demo.

(* ===================================================================== *)
(** ** More strings: [String.prototype.split] and what is built on it    *)
(* ===================================================================== *)


(** The character occurs in the string. *)
Fixpoint occurs (c : ascii) (s : string) : bool :=
  match s with
  | EmptyString => false
  | String d r => Ascii.eqb d c || occurs c r
  end.

(** [s.split(sep)] for a one-character separator: the pieces between the
    separators, in order; never the empty array. *)
Fixpoint split_on (sep : ascii) (s : string) : list string :=
  match s with
  | EmptyString => [EmptyString]
  | String c r =>
      if Ascii.eqb c sep then EmptyString :: split_on sep r
      else match split_on sep r with
           | piece :: pieces => String c piece :: pieces
           | [] => [String c EmptyString]
           end
  end.

(** [url.split("/").pop().split(".")[0]]: the last path segment of the
    URL, up to its first dot. *)
Definition public_id_of (url : string) : string :=
  default "" (head (split_on "."%char (default "" (last (split_on "/"%char url))))).

(* ===================================================================== *)
(** ** The account and media handlers                                    *)
(* ===================================================================== *)

Record AccountRequest : Type := mkAccountRequest {
  acc_user_id : ObjectId;
  acc_fullName : option string;
  acc_email : option string
}.

(** [req.files] as the upload middleware leaves it: for each form field
    the local paths of the files stored for it, or [undefined]. *)
Record FilesRequest : Type := mkFilesRequest {
  files_user_id : ObjectId;
  req_files : option (gmap string (list string))
}.

(** [req.files?.field?.[0]?.path] *)
Definition local_path (field : string) (files : option (gmap string (list string)))
  : option string :=
  match files with
  | None => None
  | Some m =>
      match m !! field with
      | None => None
      | Some stored => head stored
      end
  end.

Definition set_account (fn em : string) (u : User) : User :=
  {| username := username u; email := em; fullName := fn;
     avatar := avatar u; coverImage := coverImage u; password := password u;
     refreshToken := refreshToken u; watchHistory := watchHistory u |}.

Definition set_avatar (url : string) (u : User) : User :=
  {| username := username u; email := email u; fullName := fullName u;
     avatar := url; coverImage := coverImage u; password := password u;
     refreshToken := refreshToken u; watchHistory := watchHistory u |}.

Definition set_coverImage (url : string) (u : User) : User :=
  {| username := username u; email := email u; fullName := fullName u;
     avatar := avatar u; coverImage := url; password := password u;
     refreshToken := refreshToken u; watchHistory := watchHistory u |}.

(** The media store beside the user collection: the public ids handed to
    [cloudinary.uploader.destroy], in order. *)
Record Media : Type := mkMedia {
  world : World;
  destroyed : list string
}.

Definition MediaHandler (A : Type) : Type := Media -> Outcome A * Media.

#[global] Instance MediaHandler_ret : MRet MediaHandler :=
  fun A a m => (Returned a, m).

#[global] Instance MediaHandler_bind : MBind MediaHandler :=
  fun A B f h m =>
    match h m with
    | (Threw e, m') => (Threw e, m')
    | (Returned a, m') => f a m'
    end.

(** A handler of the user collection run beside the media store. *)
Definition with_store {A : Type} (h : Handler A) : MediaHandler A :=
  fun m =>
    match h (world m) with
    | (o, w') => (o, {| world := w'; destroyed := destroyed m |})
    end.

(** [cloudinary.uploader.destroy(publicId)] *)
Definition destroy (public_id : string) : MediaHandler unit :=
  fun m => (Returned tt, {| world := world m;
                            destroyed := destroyed m ++ [public_id] |}).

(** The response [loginUser] sends with a new pair. *)
Definition login_response (loggedInUser : option Doc) (accessToken refreshToken : Token)
  : Response :=
  {| status := 200;
     cookies := [SetCookie "accessToken" accessToken {| httpOnly := true; secure := false;
                                                         sameSite := "lax" |};
                 SetCookie "refreshToken" refreshToken {| httpOnly := true; secure := false;
                                                           sameSite := "lax" |}];
     json := {| statusCode := 200;
                data := DataLogin loggedInUser accessToken refreshToken;
                message := "User logged in successfully" |} |}.

(** The collection with one more call in its log. *)
Definition logged (cs : list StoreCall) (w : World) : World :=
  {| users := users w; calls := calls w ++ cs |}.

Section AccountAndMedia.
Context {C : Collaborators}.

(** Whether the collection's indexes accept the new email is the
    business of the schema and is not modelled: the update is applied as
    the update document reads. *)
Definition updateAccountDetails (env : Env) (req : AccountRequest) : Handler Response :=
  let fullName := acc_fullName req in
  let email := acc_email req in
  if negb (truthy fullName) || negb (truthy email)
  then throw (ApiError 400 "All fields are required")
  else
    match fullName, email with
    | Some fn, Some em =>
        user ← findByIdAndUpdate env (acc_user_id req) (set_account fn em);
        mret {| status := 200; cookies := [];
                json := {| statusCode := 200;
                           data := DataUser (select "-password"
                                               <$> (toObject (acc_user_id req) <$> user));
                           message := "Account details updated successfully." |} |}
    | _, _ => throw (ApiError 400 "All fields are required")
    end.

Definition updateUserAvater (env : Env) (req : FilesRequest) : MediaHandler Response :=
  let avatarLocalPath := local_path "avatar" (req_files req) in
  if negb (truthy avatarLocalPath)
  then with_store (throw (ApiError 400 "Avatar file is missing."))
  else
    user ← with_store (findById (files_user_id req));
    match user with
    | None =>
        with_store (throw (TypeError "Cannot read properties of null (reading 'avatar')"))
    | Some u =>
        (if truthy (Some (avatar u))
         then destroy (public_id_of (avatar u))
         else mret tt);;
        let avatar := uploadOnCloudinary avatarLocalPath in
        if negb (truthy avatar)
        then with_store (throw (ApiError 400 "Error while uploading avatar."))
        else
          updateAvatar ← with_store
            (findByIdAndUpdate env (files_user_id req) (set_avatar (default "" avatar)));
          mret {| status := 200; cookies := [];
                  json := {| statusCode := 200;
                             data := DataUser (select "-password"
                                                 <$> (toObject (files_user_id req)
                                                        <$> updateAvatar));
                             message := "Avatar updated successfully." |} |}
    end.

Definition updateUserCoverImage (env : Env) (req : FilesRequest) : MediaHandler Response :=
  let coverImageLocalPath := local_path "coverImage" (req_files req) in
  if negb (truthy coverImageLocalPath)
  then with_store (throw (ApiError 400 "Cover image is missing."))
  else
    user ← with_store (findById (files_user_id req));
    match user with
    | None =>
        with_store (throw (TypeError "Cannot read properties of null (reading 'coverImage')"))
    | Some u =>
        (if truthy (Some (coverImage u))
         then destroy (public_id_of (coverImage u))
         else mret tt);;
        let coverImage := uploadOnCloudinary coverImageLocalPath in
        if negb (truthy coverImage)
        then with_store (throw (ApiError 500 "Error while uploading cover image."))
        else
          updatedUser ← with_store
            (findByIdAndUpdate env (files_user_id req) (set_coverImage (default "" coverImage)));
          mret {| status := 200; cookies := [];
                  json := {| statusCode := 200;
                             data := DataUser (select "-password"
                                                 <$> (toObject (files_user_id req)
                                                        <$> updatedUser));
                             message := "Cover image updated successfully." |} |}
    end.

End AccountAndMedia.

(* ===================================================================== *)
(** ** The upload middleware in front of the media routes                *)
(* ===================================================================== *)

(** A file part of a multipart body: the form field it came under and
    the local path the middleware stored it at. *)
Record FilePart : Type := mkFilePart {
  part_field : string;
  part_path : string
}.

(** What the upload middleware sets on the request. *)
Record Uploaded : Type := mkUploaded {
  req_file : option string;
  uploaded_files : option (gmap string (list string))
}.

(** [upload.single(field)]: at most one file, under that field; it is
    stored in [req.file], and [req.files] is not set. [None] when the
    middleware rejects the body and the handler is not reached. *)
Definition upload_single (field : string) (parts : list FilePart) : option Uploaded :=
  match parts with
  | [] => Some {| req_file := None; uploaded_files := None |}
  | [p] =>
      if String.eqb (part_field p) field
      then Some {| req_file := Some (part_path p); uploaded_files := None |}
      else None
  | _ => None
  end.

(** [router.route("/avatar").patch(verifyJWT, upload.single("avatar"),
    updateUserAvater)], for the caller [verifyJWT] resolved. *)
Definition avatar_route {C : Collaborators} (env : Env) (caller : ObjectId)
    (parts : list FilePart) (m : Media) : option (Outcome Response * Media) :=
  match upload_single "avatar" parts with
  | None => None
  | Some up =>
      Some (updateUserAvater env {| files_user_id := caller;
                                    req_files := uploaded_files up |} m)
  end.

(** [router.route("/cover-image").patch(verifyJWT,
    upload.single("coverImage"), updateUserCoverImage)]. *)
Definition cover_image_route {C : Collaborators} (env : Env) (caller : ObjectId)
    (parts : list FilePart) (m : Media) : option (Outcome Response * Media) :=
  match upload_single "coverImage" parts with
  | None => None
  | Some up =>
      Some (updateUserCoverImage env {| files_user_id := caller;
                                        req_files := uploaded_files up |} m)
  end.

(* ===================================================================== *)
(** ** The channel profile                                               *)
(* ===================================================================== *)

(** A document of the subscriptions collection, as the pipeline reads
    it: who subscribes, and to which channel. *)
Record Subscription : Type := mkSubscription {
  subscriber : ObjectId;
  channel : ObjectId
}.

(** A document the aggregation pipeline puts out. *)
Record Channel : Type := mkChannel {
  channel_fields : Doc;
  subscribers : list Subscription;
  subscribedTo : list Subscription;
  subscribersCount : nat;
  channelsSubscribedToCount : nat;
  isSubscribed : bool
}.

Record ChannelResponse : Type := mkChannelResponse {
  channel_status : Z;
  channel_statusCode : Z;
  channel_data : Channel;
  channel_message : string
}.

(** The five stages applied to one matched user: the two lookups into
    the subscriptions, the three added fields, and the projection that
    drops the password. *)
Definition channel_of (caller : option ObjectId) (subs : list Subscription)
    (id : ObjectId) (u : User) : Channel :=
  let subscribers := List.filter (fun s => N.eqb (channel s) id) subs in
  let subscribedTo := List.filter (fun s => N.eqb (subscriber s) id) subs in
  {| channel_fields := delete "password" (toObject id u);
     subscribers := subscribers;
     subscribedTo := subscribedTo;
     subscribersCount := List.length subscribers;
     channelsSubscribedToCount := List.length subscribedTo;
     isSubscribed :=
       match caller with
       | Some me => existsb (fun s => N.eqb (subscriber s) me) subscribers
       | None => false
       end |}.

(** [User.aggregate([{ $match: { username } }, ...])] *)
Definition aggregate_channel (caller : option ObjectId) (name : string)
    (m : gmap N User) (subs : list Subscription) : list Channel :=
  (fun iu => channel_of caller subs (fst iu) (snd iu))
    <$> List.filter (fun iu => String.eqb (username (snd iu)) name) (map_to_list m).

(** The handler reads the two collections and writes nothing. *)
Definition getUserChannelProfile (caller : option ObjectId) (username : option string)
    (m : gmap N User) (subs : list Subscription) : Outcome ChannelResponse :=
  match username with
  | None => Threw (ApiError 400 "Username is missing.")
  | Some name =>
      if String.eqb (trim name) ""
      then Threw (ApiError 400 "Username is missing.")
      else
        match aggregate_channel caller (toLowerCase name) m subs with
        | [] => Threw (ApiError 404 "Channel not found.")
        | first :: _ =>
            Returned {| channel_status := 200; channel_statusCode := 200;
                        channel_data := first;
                        channel_message := "User channel profile fetched successfully." |}
        end
  end.

(* ===================================================================== *)
(** ** More of the concrete deployment                                   *)
(* ===================================================================== *)

Module Cases.

Definition carol_id : ObjectId := 9%N.

Definition carol : User :=
  {| username := "carol"; email := "carol@example.com"; fullName := "Carol";
     avatar := "https://res.cloudinary.com/demo/image/upload/v1/carol.small.png";
     coverImage := "";
     password := Demo.hash "croquet";
     refreshToken := Some (Signed "refresh-secret" (mkPayload 9%N 50 864050));
     watchHistory := [] |}.

(** alice with the session opened at clock reading 100, and carol. *)
Definition two_users : World :=
  {| users := <[carol_id := carol]> (users (Demo.logged_in 100)); calls := [] |}.

Definition media0 : Media := {| world := two_users; destroyed := [] |}.

Definition subscriptions : list Subscription :=
  [ {| subscriber := Demo.alice_id; channel := carol_id |};
    {| subscriber := 11%N; channel := carol_id |};
    {| subscriber := carol_id; channel := 12%N |} ].

Definition bob : RegisterRequest :=
  {| reg_fullName := Some "Bob"; reg_email := Some "bob@example.com";
     reg_username := Some "Bob"; reg_password := Some "builder";
     reg_avatar_path := Some "bob.png"; reg_coverImage_path := None |}.

Definition bob_login (name : string) : LoginRequest :=
  {| login_email := None; login_username := Some name;
     login_password := Some "builder" |}.

(** The deployment with the media store out of reach: every upload
    comes back [null]. *)
Definition media_down : Collaborators :=
  {| ACCESS_TOKEN_SECRET := "access-secret";
     REFRESH_TOKEN_SECRET := "refresh-secret";
     ACCESS_TOKEN_EXPIRY := 900;
     REFRESH_TOKEN_EXPIRY := 864000;
     bcrypt_hash := Demo.hash;
     bcrypt_compare := fun p h => String.eqb (Demo.hash p) h;
     uploadOnCloudinary := fun _ => None |}.

Definition carol_cover (path : string) : FilesRequest :=
  {| files_user_id := carol_id;
     req_files := Some {[ "coverImage" := [path] ]} |}.

Definition carol_avatar (path : string) : FilesRequest :=
  {| files_user_id := carol_id;
     req_files := Some {[ "avatar" := [path] ]} |}.

End Cases.


(* ===================================================================== *)
(** ** Running handlers                                                  *)
(* ===================================================================== *)

Ltac unfold_monad :=
  unfold findOne, findById, save, findByIdAndUpdate, isPasswordCorrect,
    pre_save_password, record_call, get_users, put_users, throw, try_catch,
    mbind, Handler_bind, mret, Handler_ret.

Example trim_strips_both_ends : trim "  alice smith  " = "alice smith".
Proof. reflexivity. Qed.

Example trim_of_spaces_is_empty : trim "   " = "".
Proof. reflexivity. Qed.

Example trim_strips_no_break_spaces :
  trim (no_break_space ++ " bob smith" ++ no_break_space ++ " ") = "bob smith".
Proof. reflexivity. Qed.

Example trim_of_no_break_space_is_empty : trim no_break_space = "".
Proof. reflexivity. Qed.

Example toLowerCase_Bob : toLowerCase "Bob" = "bob".
Proof. reflexivity. Qed.

Example words_of_login_projection :
  words "-password -refreshToken" = ["-password"; "-refreshToken"].
Proof. reflexivity. Qed.

Example verify_rejects_access_token_as_refresh_token :
  jwt_verify 10 (jwt_sign 5 1%N "access-secret" 900) "refresh-secret"
  = inl (JsonWebTokenError "invalid signature").
Proof. reflexivity. Qed.

Section Properties.
Context {C : Collaborators}.

Lemma first_match_lookup e n (m : gmap N User) id u :
  first_match e n m = Some (id, u) -> m !! id = Some u.
Proof.
  unfold first_match. intros Hfind.
  apply find_some in Hfind as [Hin _].
  apply list_elem_of_In in Hin.
  by apply elem_of_map_to_list in Hin.
Qed.

(** The whole behaviour of [generateAccessAndRefreshTokens] in one
    equation: it succeeds exactly when the user exists and the write
    goes through, and every failure surfaces as the same 500 error. *)
Lemma generateAccessAndRefreshTokens_eq env id w :
  generateAccessAndRefreshTokens env id w =
  match users w !! id with
  | Some u =>
      if store_writable env then
        (Returned (generateAccessToken env id, generateRefreshToken env id),
         {| users := <[id := set_refreshToken (Some (generateRefreshToken env id)) u]> (users w);
            calls := (calls w ++ [CallFindById id; CallSave id])%list |})
      else
        (Threw (ApiError 500 "Something went wrong while generating tokens"),
         {| users := users w;
            calls := (calls w ++ [CallFindById id; CallSave id])%list |})
  | None =>
      (Threw (ApiError 500 "Something went wrong while generating tokens"),
       {| users := users w; calls := (calls w ++ [CallFindById id])%list |})
  end.
Proof.
  unfold generateAccessAndRefreshTokens. unfold_monad. simpl.
  destruct (users w !! id) as [u|]; simpl; [|done].
  destruct (store_writable env); simpl; by rewrite <- app_assoc.
Qed.

(** Whatever [refreshAccessToken] throws is a 401 [ApiError]. *)
Lemma refresh_throws_401 env req w e w' :
  refreshAccessToken env req w = (Threw e, w') -> exists m, e = ApiError 401 m.
Proof.
  unfold refreshAccessToken.
  destruct (token_truthy _); simpl; [|unfold throw; intros [= <- _]; eauto].
  destruct (incoming req) as [t|]; [|unfold throw; intros [= <- _]; eauto].
  unfold try_catch.
  match goal with |- context [match ?b w with _ => _ end] => destruct (b w) as [[e0|r0] w0] end.
  - unfold throw. intros [= <- _]. eauto.
  - discriminate.
Qed.

(** When [refreshAccessToken] returns, the presented token carried the
    refresh secret, had not expired, named an existing user and was
    textually the token stored for that user, and the write went
    through; the response and the new world are then determined. *)
Lemma refresh_returns_inv env req w r w' :
  refreshAccessToken env req w = (Returned r, w') ->
  exists p u,
    incoming req = Some (Signed REFRESH_TOKEN_SECRET p)
    /\ now env < exp p
    /\ users w !! claim_id p = Some u
    /\ refreshToken u = Some (Signed REFRESH_TOKEN_SECRET p)
    /\ store_writable env = true
    /\ r = tokens_response (generateAccessToken env (claim_id p))
                           (generateRefreshToken env (claim_id p))
    /\ users w' = <[claim_id p :=
                      set_refreshToken (Some (generateRefreshToken env (claim_id p))) u]>
                   (users w).
Proof.
  unfold refreshAccessToken.
  destruct (token_truthy _); simpl; [|unfold throw; discriminate].
  destruct (incoming req) as [t|]; [|unfold throw; discriminate].
  unfold try_catch, jwt_verify.
  destruct t as [s p|txt]; [|unfold throw; discriminate].
  destruct (String.eqb_spec s REFRESH_TOKEN_SECRET) as [->|]; [|unfold throw; discriminate].
  destruct (Z.leb_spec (exp p) (now env)); [unfold throw; discriminate|].
  unfold_monad. simpl.
  destruct (users w !! claim_id p) as [u|] eqn:Hu; simpl; [|discriminate].
  case_bool_decide as Hcmp; simpl; [discriminate|].
  pose proof (generateAccessAndRefreshTokens_eq env (claim_id p)
                {| users := users w; calls := (calls w ++ [CallFindById (claim_id p)])%list |})
    as Hgen.
  simpl in Hgen. rewrite Hu in Hgen.
  unfold mbind, Handler_bind in Hgen |- *.
  rewrite Hgen.
  destruct (store_writable env) eqn:Hw; simpl; [|discriminate].
  intros [= <- <-]. exists p, u. simpl. done.
Qed.

(** The response of a successful refresh. *)
Lemma refresh_accepts env req w p u :
  incoming req = Some (Signed REFRESH_TOKEN_SECRET p) ->
  now env < exp p ->
  users w !! claim_id p = Some u ->
  refreshToken u = Some (Signed REFRESH_TOKEN_SECRET p) ->
  store_writable env = true ->
  exists r w',
    refreshAccessToken env req w = (Returned r, w')
    /\ r = tokens_response (generateAccessToken env (claim_id p))
                           (generateRefreshToken env (claim_id p))
    /\ users w' = <[claim_id p :=
                      set_refreshToken (Some (generateRefreshToken env (claim_id p))) u]>
                   (users w).
Proof.
  intros Hin Hexp Hu Htok Hw.
  unfold refreshAccessToken. rewrite Hin. simpl.
  unfold try_catch, jwt_verify. rewrite String.eqb_refl.
  destruct (Z.leb_spec (exp p) (now env)); [lia|].
  unfold_monad. simpl. rewrite Hu. simpl.
  case_bool_decide as Hcmp; [by rewrite Htok in Hcmp|]. simpl.
  pose proof (generateAccessAndRefreshTokens_eq env (claim_id p)
                {| users := users w; calls := (calls w ++ [CallFindById (claim_id p)])%list |})
    as Hgen.
  simpl in Hgen. rewrite Hu, Hw in Hgen.
  unfold mbind, Handler_bind in Hgen |- *.
  rewrite Hgen. simpl. eauto.
Qed.

(** A refresh cannot return when the user the presented token names
    does not hold exactly that token. *)
Lemma refresh_rejects_unstored env req w t uid :
  incoming req = Some t ->
  token_subject t = Some uid ->
  refreshToken <$> (users w !! uid) <> Some (Some t) ->
  exists m w', refreshAccessToken env req w = (Threw (ApiError 401 m), w').
Proof.
  intros Hin Hsub Hstored.
  destruct (refreshAccessToken env req w) as [[e|r] w'] eqn:Hrun.
  - apply refresh_throws_401 in Hrun as Hm. destruct Hm as [m ->]. eauto.
  - exfalso. apply refresh_returns_inv in Hrun as (p & u & Hin' & _ & Hu & Htok & _).
    rewrite Hin in Hin'. injection Hin' as ->. simpl in Hsub. injection Hsub as <-.
    apply Hstored. by rewrite Hu, <- Htok.
Qed.

(** The update [logoutUser] sends has no key left in it: no stored
    document is changed by a logout, whether it returns or not. *)
Lemma logout_writes_nothing env uid w :
  users (snd (logoutUser env uid w)) = users w.
Proof.
  unfold logoutUser. unfold_monad. simpl.
  destruct (store_writable env); simpl; [|done].
  by apply alter_id.
Qed.

(** C2, for a refresh that issues a new token. After a refresh that
    succeeds and issues a refresh token textually different from the one
    presented, the stored token is the new one, and presenting the old
    token again fails with a 401 error at any later time. *)
Theorem refresh_replay_rejected env1 req w r w1 t t' :
  incoming req = Some t ->
  refreshAccessToken env1 req w = (Returned r, w1) ->
  issued_refreshToken r = Some t' ->
  t' <> t ->
  (exists uid u, token_subject t = Some uid
                 /\ users w1 !! uid = Some u /\ refreshToken u = Some t')
  /\ forall env2, exists m w2,
       refreshAccessToken env2 req w1 = (Threw (ApiError 401 m), w2).
Proof.
  intros Hin Hrun Hissued Hne.
  apply refresh_returns_inv in Hrun as (p & u & Hin' & _ & Hu & _ & _ & Hdata & Hw1).
  rewrite Hin in Hin'. injection Hin' as ->.
  rewrite Hdata in Hissued. injection Hissued as <-.
  assert (Hnew : users w1 !! claim_id p
                 = Some (set_refreshToken
                           (Some (generateRefreshToken env1 (claim_id p))) u)).
  { rewrite Hw1. apply lookup_insert_eq. }
  split.
  - exists (claim_id p), (set_refreshToken (Some (generateRefreshToken env1 (claim_id p))) u).
    done.
  - intros env2.
    apply (refresh_rejects_unstored env2 req w1 _ (claim_id p) Hin eq_refl).
    rewrite Hnew. simpl. congruence.
Qed.

(** A refresh token issued at one clock reading differs from every
    token issued at another. *)
Lemma refresh_token_fresh_when_clock_moved env id s p :
  iat p <> now env -> generateRefreshToken env id <> Signed s p.
Proof.
  unfold generateRefreshToken, jwt_sign. intros Hne [= _ <-]. by apply Hne.
Qed.

(** When [loginUser] returns, the request named a stored user whose
    password the verifier confirmed and the write went through; the
    tokens in the response are the ones issued at the clock reading of
    the request, and the issued refresh token is the one now stored. *)
Lemma login_returns_inv env req w r w1 :
  loginUser env req w = (Returned r, w1) ->
  exists id u pw,
    first_match (login_email req) (login_username req) (users w) = Some (id, u)
    /\ login_password req = Some pw
    /\ bcrypt_compare pw (password u) = true
    /\ store_writable env = true
    /\ data (json r) =
         DataLogin (Some (select "-password -refreshToken"
                            (toObject id (set_refreshToken
                                            (Some (generateRefreshToken env id)) u))))
                   (generateAccessToken env id) (generateRefreshToken env id)
    /\ users w1 = <[id := set_refreshToken (Some (generateRefreshToken env id)) u]> (users w).
Proof.
  unfold loginUser.
  destruct (_ || _); [unfold throw; discriminate|].
  unfold mbind at 1. unfold Handler_bind at 1.
  unfold findOne at 1. unfold_monad. simpl.
  destruct (first_match _ _ _) as [[id u]|] eqn:Hfind; simpl; [|discriminate].
  destruct (login_password req) as [pw|]; simpl; [|discriminate].
  destruct (bcrypt_compare pw (password u)) eqn:Hpw; simpl; [|discriminate].
  pose proof (generateAccessAndRefreshTokens_eq env id
                {| users := users w;
                   calls := (calls w ++ [CallFindOne (login_email req) (login_username req)])%list |})
    as Hgen.
  simpl in Hgen. rewrite (first_match_lookup _ _ _ _ _ Hfind) in Hgen.
  unfold mbind, Handler_bind in Hgen |- *.
  rewrite Hgen.
  destruct (store_writable env); simpl; [|discriminate].
  rewrite lookup_insert_eq. simpl.
  intros [= <- <-]. exists id, u, pw. simpl. done.
Qed.

(** A login with valid credentials returns. *)
Lemma login_accepts env req w id u pw :
  truthy (login_email req) || truthy (login_username req) = true ->
  login_password req = Some pw ->
  pw <> "" ->
  first_match (login_email req) (login_username req) (users w) = Some (id, u) ->
  bcrypt_compare pw (password u) = true ->
  store_writable env = true ->
  exists r w1,
    loginUser env req w = (Returned r, w1)
    /\ issued_refreshToken r = Some (generateRefreshToken env id)
    /\ users w1 = <[id := set_refreshToken (Some (generateRefreshToken env id)) u]> (users w).
Proof.
  intros Hident Hpw Hne Hfind Hok Hw.
  unfold loginUser. rewrite Hpw.
  assert (Htr : truthy (Some pw) = true).
  { simpl. apply negb_true_iff. by apply String.eqb_neq. }
  rewrite Htr.
  assert (Hguard : negb (truthy (login_email req)) && negb (truthy (login_username req))
                   || negb true = false).
  { destruct (truthy (login_email req)), (truthy (login_username req)); done. }
  rewrite Hguard.
  unfold mbind at 1. unfold Handler_bind at 1.
  unfold findOne at 1. unfold_monad. simpl.
  rewrite Hfind. simpl. rewrite Hok. simpl.
  pose proof (generateAccessAndRefreshTokens_eq env id
                {| users := users w;
                   calls := (calls w ++ [CallFindOne (login_email req) (login_username req)])%list |})
    as Hgen.
  simpl in Hgen. rewrite (first_match_lookup _ _ _ _ _ Hfind), Hw in Hgen.
  unfold mbind, Handler_bind in Hgen |- *.
  rewrite Hgen. simpl. rewrite lookup_insert_eq. simpl. eauto.
Qed.

(** At most one refresh token is valid for a user at a time: two
    tokens naming the same user that a refresh would both accept in the
    same world are textually the same token. *)
Lemma one_valid_refresh_token env_a env_b req_a req_b ta tb w ra wa rb wb :
  incoming req_a = Some ta ->
  incoming req_b = Some tb ->
  token_subject ta = token_subject tb ->
  refreshAccessToken env_a req_a w = (Returned ra, wa) ->
  refreshAccessToken env_b req_b w = (Returned rb, wb) ->
  ta = tb.
Proof.
  intros Ha Hb Hsub Hra Hrb.
  apply refresh_returns_inv in Hra as (pa & ua & Ha' & _ & Hua & Hta & _).
  apply refresh_returns_inv in Hrb as (pb & ub & Hb' & _ & Hub & Htb & _).
  rewrite Ha in Ha'. injection Ha' as ->. rewrite Hb in Hb'. injection Hb' as ->.
  simpl in Hsub. injection Hsub as Hid. rewrite Hid in Hua.
  rewrite Hua in Hub. injection Hub as ->. congruence.
Qed.

(** C3, for tokens other than the one the login issues. A login that
    returns writes the refresh token it issues over whatever the user's
    record held, so that token is the only one a refresh accepts for
    that user: a refresh presenting any textually different token that
    names the user fails with a 401 error, expired or not. The token of
    a login made at another clock reading is such a token. *)
Theorem login_supersedes_other_tokens env req w r w1 :
  loginUser env req w = (Returned r, w1) ->
  exists uid u t2,
    issued_refreshToken r = Some t2
    /\ token_subject t2 = Some uid
    /\ users w1 !! uid = Some u
    /\ refreshToken u = Some t2
    /\ (forall env' req' t1,
          incoming req' = Some t1 ->
          token_subject t1 = Some uid ->
          t1 <> t2 ->
          exists m w2, refreshAccessToken env' req' w1 = (Threw (ApiError 401 m), w2))
    /\ (forall env0 env' req',
          now env0 <> now env ->
          incoming req' = Some (generateRefreshToken env0 uid) ->
          exists m w2, refreshAccessToken env' req' w1 = (Threw (ApiError 401 m), w2)).
Proof.
  intros Hrun.
  apply login_returns_inv in Hrun as (id & u & pw & _ & _ & _ & _ & Hdata & Hw1).
  exists id, (set_refreshToken (Some (generateRefreshToken env id)) u),
    (generateRefreshToken env id).
  assert (Hnew : users w1 !! id
                 = Some (set_refreshToken (Some (generateRefreshToken env id)) u)).
  { rewrite Hw1. apply lookup_insert_eq. }
  assert (Hother : forall env' req' t1,
             incoming req' = Some t1 ->
             token_subject t1 = Some id ->
             t1 <> generateRefreshToken env id ->
             exists m w2, refreshAccessToken env' req' w1 = (Threw (ApiError 401 m), w2)).
  { intros env' req' t1 Hin Hsub Hne.
    apply (refresh_rejects_unstored env' req' w1 t1 id Hin Hsub).
    rewrite Hnew. simpl. congruence. }
  unfold issued_refreshToken. rewrite Hdata. repeat split; try done.
  intros env0 env' req' Hclock Hin.
  apply (Hother env' req' _ Hin eq_refl).
  apply refresh_token_fresh_when_clock_moved. simpl. congruence.
Qed.

(** C4, with the clock made explicit. With valid credentials and a
    store that accepts writes, a login followed by a refresh that
    presents the returned refresh token before it expires succeeds, and
    the refresh token it returns differs from the one it was given
    exactly when the refresh runs at a clock reading other than the
    login's. *)
Theorem login_then_refresh_rotates env1 env2 req w id u pw :
  truthy (login_email req) || truthy (login_username req) = true ->
  login_password req = Some pw ->
  pw <> "" ->
  first_match (login_email req) (login_username req) (users w) = Some (id, u) ->
  bcrypt_compare pw (password u) = true ->
  store_writable env1 = true ->
  store_writable env2 = true ->
  now env2 < now env1 + REFRESH_TOKEN_EXPIRY ->
  exists r1 w1 t1,
    loginUser env1 req w = (Returned r1, w1)
    /\ issued_refreshToken r1 = Some t1
    /\ forall req2,
         incoming req2 = Some t1 ->
         exists r2 w2 t2,
           refreshAccessToken env2 req2 w1 = (Returned r2, w2)
           /\ issued_refreshToken r2 = Some t2
           /\ (t2 <> t1 <-> now env2 <> now env1).
Proof.
  intros Hident Hpw Hne Hfind Hok Hw1 Hw2 Hlive.
  destruct (login_accepts env1 req w id u pw Hident Hpw Hne Hfind Hok Hw1)
    as (r1 & w1 & Hrun & Hissued & Hstore).
  exists r1, w1, (generateRefreshToken env1 id). repeat split; try done.
  intros req2 Hin.
  destruct (refresh_accepts env2 req2 w1
              {| claim_id := id; iat := now env1; exp := now env1 + REFRESH_TOKEN_EXPIRY |}
              (set_refreshToken (Some (generateRefreshToken env1 id)) u))
    as (r2 & w2 & Hrun2 & Hdata2 & _); try done.
  { rewrite Hstore. apply lookup_insert_eq. }
  exists r2, w2, (generateRefreshToken env2 id).
  subst r2. simpl. split; [done|]. split; [done|].
  unfold generateRefreshToken, jwt_sign. split.
  - intros Hdiff Hsame. apply Hdiff. by rewrite Hsame.
  - intros Hclock [= Hsame]. done.
Qed.

Lemma refresh_expired env req w p :
  incoming req = Some (Signed REFRESH_TOKEN_SECRET p) ->
  exp p <= now env ->
  refreshAccessToken env req w = (Threw (ApiError 401 "jwt expired"), w).
Proof.
  intros Hin Hexp. unfold refreshAccessToken. rewrite Hin. simpl.
  unfold try_catch, jwt_verify. rewrite String.eqb_refl.
  destruct (Z.leb_spec (exp p) (now env)); [done|lia].
Qed.

(** C5. A refresh presenting a token that carries the refresh secret
    and whose expiry time has passed fails with the 401 error whose
    message is "jwt expired", and that message identifies expiry: no
    other failure of a refresh (missing token, malformed token, wrong
    signature, unknown user, mismatch with the stored token, token
    generation) carries it. *)
Theorem expired_refresh_distinguishable env req w p :
  incoming req = Some (Signed REFRESH_TOKEN_SECRET p) ->
  exp p <= now env ->
  refreshAccessToken env req w = (Threw (ApiError 401 "jwt expired"), w)
  /\ forall env' req' w' e w'',
       refreshAccessToken env' req' w' = (Threw e, w'') ->
       exn_message e = "jwt expired" ->
       exists p', incoming req' = Some (Signed REFRESH_TOKEN_SECRET p')
                  /\ exp p' <= now env'.
Proof.
  intros Hin Hexp. split; [by apply (refresh_expired env req w p)|].
  clear. intros env req w e w'. unfold refreshAccessToken.
  destruct (token_truthy _); simpl; [|unfold throw; intros [= <- _]; discriminate].
  destruct (incoming req) as [t|]; [|unfold throw; intros [= <- _]; discriminate].
  unfold try_catch, jwt_verify.
  destruct t as [s p|txt]; [|unfold throw; intros [= <- _]; discriminate].
  destruct (String.eqb_spec s REFRESH_TOKEN_SECRET) as [->|];
    [|unfold throw; intros [= <- _]; discriminate].
  destruct (Z.leb_spec (exp p) (now env)); [intros _ _; eauto|].
  unfold_monad. simpl.
  destruct (users w !! claim_id p) as [u|] eqn:Hu; simpl; [|intros [= <- _]; discriminate].
  case_bool_decide as Hcmp; simpl; [intros [= <- _]; discriminate|].
  pose proof (generateAccessAndRefreshTokens_eq env (claim_id p)
                {| users := users w; calls := (calls w ++ [CallFindById (claim_id p)])%list |})
    as Hgen.
  simpl in Hgen. rewrite Hu in Hgen.
  unfold mbind, Handler_bind in Hgen |- *.
  rewrite Hgen.
  destruct (store_writable env); simpl; [discriminate|intros [= <- _]; discriminate].
Qed.

(** A login whose token write fails surfaces the 500 error of
    [generateAccessAndRefreshTokens]. *)
Lemma login_write_failure env req w id u pw :
  truthy (login_email req) || truthy (login_username req) = true ->
  login_password req = Some pw ->
  pw <> "" ->
  first_match (login_email req) (login_username req) (users w) = Some (id, u) ->
  bcrypt_compare pw (password u) = true ->
  store_writable env = false ->
  exists w',
    loginUser env req w
    = (Threw (ApiError 500 "Something went wrong while generating tokens"), w')
    /\ users w' = users w.
Proof.
  intros Hident Hpw Hne Hfind Hok Hw.
  unfold loginUser. rewrite Hpw.
  assert (Htr : truthy (Some pw) = true).
  { simpl. apply negb_true_iff. by apply String.eqb_neq. }
  rewrite Htr.
  assert (Hguard : negb (truthy (login_email req)) && negb (truthy (login_username req))
                   || negb true = false).
  { destruct (truthy (login_email req)), (truthy (login_username req)); done. }
  rewrite Hguard.
  unfold mbind at 1. unfold Handler_bind at 1.
  unfold findOne at 1. unfold_monad. simpl.
  rewrite Hfind. simpl. rewrite Hok. simpl.
  pose proof (generateAccessAndRefreshTokens_eq env id
                {| users := users w;
                   calls := (calls w ++ [CallFindOne (login_email req) (login_username req)])%list |})
    as Hgen.
  simpl in Hgen. rewrite (first_match_lookup _ _ _ _ _ Hfind), Hw in Hgen.
  unfold mbind, Handler_bind in Hgen |- *.
  rewrite Hgen. simpl. eauto.
Qed.

(** A refresh whose token write fails has the same 500 error caught by
    its own [catch], which rethrows it with status 401. *)
Lemma refresh_write_failure env req w p u :
  incoming req = Some (Signed REFRESH_TOKEN_SECRET p) ->
  now env < exp p ->
  users w !! claim_id p = Some u ->
  refreshToken u = Some (Signed REFRESH_TOKEN_SECRET p) ->
  store_writable env = false ->
  exists w',
    refreshAccessToken env req w
    = (Threw (ApiError 401 "Something went wrong while generating tokens"), w')
    /\ users w' = users w.
Proof.
  intros Hin Hexp Hu Htok Hw.
  unfold refreshAccessToken. rewrite Hin. simpl.
  unfold try_catch, jwt_verify. rewrite String.eqb_refl.
  destruct (Z.leb_spec (exp p) (now env)); [lia|].
  unfold_monad. simpl. rewrite Hu. simpl.
  case_bool_decide as Hcmp; [by rewrite Htok in Hcmp|]. simpl.
  pose proof (generateAccessAndRefreshTokens_eq env (claim_id p)
                {| users := users w; calls := (calls w ++ [CallFindById (claim_id p)])%list |})
    as Hgen.
  simpl in Hgen. rewrite Hu, Hw in Hgen.
  unfold mbind, Handler_bind in Hgen |- *.
  rewrite Hgen. simpl. eauto.
Qed.

Lemma changePassword_returns_inv env req w r w1 :
  changeCurrentPassword env req w = (Returned r, w1) ->
  exists u old new,
    users w !! req_user_id req = Some u
    /\ oldpassword req = Some old
    /\ bcrypt_compare old (password u) = true
    /\ newPassword req = Some new
    /\ store_writable env = true
    /\ users w1 = <[req_user_id req := set_password (bcrypt_hash new) u]> (users w).
Proof.
  unfold changeCurrentPassword. unfold_monad. simpl.
  destruct (users w !! req_user_id req) as [u|]; simpl; [|discriminate].
  destruct (oldpassword req) as [old|]; simpl; [|discriminate].
  destruct (bcrypt_compare old (password u)) eqn:Hold; simpl; [|discriminate].
  destruct (newPassword req) as [new|]; simpl; [|discriminate].
  destruct (store_writable env); simpl; [|discriminate].
  intros [= _ <-]. exists u, old, new. done.
Qed.

(** C8. A password change that returns rewrites one record, replacing
    its password by the hash of the new one; the refresh-token field of
    every record is as before, and every refresh that would have
    succeeded before the change succeeds after it with the same
    response. *)
Theorem changePassword_keeps_sessions env req w r w1 :
  changeCurrentPassword env req w = (Returned r, w1) ->
  (exists u new,
      users w !! req_user_id req = Some u
      /\ newPassword req = Some new
      /\ users w1 = <[req_user_id req := set_password (bcrypt_hash new) u]> (users w))
  /\ (forall id, refreshToken <$> (users w1 !! id) = refreshToken <$> (users w !! id))
  /\ (forall env' req' r' w',
        refreshAccessToken env' req' w = (Returned r', w') ->
        exists w1', refreshAccessToken env' req' w1 = (Returned r', w1')).
Proof.
  intros Hrun.
  apply changePassword_returns_inv in Hrun as (u & old & new & Hu & _ & _ & Hnew & _ & Hw1).
  assert (Hframe : forall id,
             refreshToken <$> (users w1 !! id) = refreshToken <$> (users w !! id)).
  { intros id. rewrite Hw1.
    destruct (decide (req_user_id req = id)) as [<-|Hne].
    - by rewrite lookup_insert_eq, Hu.
    - by rewrite lookup_insert_ne. }
  split; [by exists u, new|]. split; [done|].
  intros env' req' r' w' Hrefresh.
  apply refresh_returns_inv in Hrefresh as (p & u0 & Hin & Hexp & Hu0 & Htok & Hw & -> & _).
  specialize (Hframe (claim_id p)). rewrite Hu0 in Hframe. simpl in Hframe.
  destruct (users w1 !! claim_id p) as [u1|] eqn:Hu1; [|discriminate].
  simpl in Hframe. injection Hframe as Hsame.
  destruct (refresh_accepts env' req' w1 p u1) as (r2 & w2 & Hrun2 & -> & _);
    try done; [congruence|].
  by exists w2.
Qed.

Lemma select_login_projection (d : Doc) :
  select "-password -refreshToken" d = delete "password" (delete "refreshToken" d).
Proof. reflexivity. Qed.

(** C9. The user projection a successful login returns is the stored
    document without its password and refresh-token fields: it is
    present, it names the user, and neither key occurs in it. *)
Theorem login_projection_sanitized env req w r w1 :
  loginUser env req w = (Returned r, w1) ->
  exists d id,
    returned_user r = Some d
    /\ is_Some (users w1 !! id)
    /\ d !! "_id" = Some (VId id)
    /\ d !! "password" = None
    /\ d !! "refreshToken" = None.
Proof.
  intros Hrun.
  apply login_returns_inv in Hrun as (id & u & pw & _ & _ & _ & _ & Hdata & Hw1).
  unfold returned_user. rewrite Hdata.
  eexists _, id. split; [reflexivity|].
  rewrite select_login_projection.
  split; [rewrite Hw1, lookup_insert_eq; eauto|].
  split; [|split].
  - rewrite lookup_delete_ne, lookup_delete_ne by done.
    unfold toObject. simpl. rewrite lookup_insert_ne by done. apply lookup_insert_eq.
  - apply lookup_delete_eq.
  - rewrite lookup_delete_ne by done. apply lookup_delete_eq.
Qed.

Lemma blank_absent_or_filled f : absent_or_filled f -> blank f = false.
Proof.
  destruct f as [s|]; simpl; [|done]. intros Hne. by apply String.eqb_neq.
Qed.

(** C10, field by field. When each of the four body fields is absent or
    has content other than white space, the required-fields check does
    not reject the request and the duplicate-user lookup is issued.
    When moreover no duplicate exists and the avatar is given and
    uploaded, a request with a username goes on to issue the database
    create, passing its absent fields as undefined (and the username,
    when written in ASCII, in lower case), whereas a request
    whose username is absent raises a TypeError before any create is
    issued and leaves the collection as it was. *)
Theorem register_absent_fields env req w :
  Forall absent_or_filled
    [reg_fullName req; reg_email req; reg_username req; reg_password req] ->
  exists out w' rest,
    registerUser env req w = (out, w')
    /\ out <> Threw (ApiError 400 "All fields are required")
    /\ calls w' = (calls w ++ CallFindOne (reg_email req) (reg_username req) :: rest)%list
    /\ (first_match (reg_email req) (reg_username req) (users w) = None ->
        truthy (reg_avatar_path req) = true ->
        forall url,
          uploadOnCloudinary (reg_avatar_path req) = Some url ->
          match reg_username req with
          | Some name =>
              exists doc rest',
                rest = CallCreate doc :: rest'
                /\ new_fullName doc = reg_fullName req
                /\ new_email doc = reg_email req
                /\ new_password doc = reg_password req
                /\ new_avatar doc = url
                /\ new_coverImage doc
                   = default "" (uploadOnCloudinary (reg_coverImage_path req))
                /\ (is_ascii name = true -> new_username doc = toLowerCase name)
          | None =>
              out = Threw (TypeError
                             "Cannot read properties of undefined (reading 'toLowerCase')")
              /\ rest = []
              /\ users w' = users w
          end).
Proof.
  intros Hfields.
  assert (Hcheck : existsb blank
            [reg_fullName req; reg_email req; reg_username req; reg_password req] = false).
  { rewrite !Forall_cons in Hfields. destruct Hfields as (H1 & H2 & H3 & H4 & _).
    simpl. by rewrite !blank_absent_or_filled. }
  unfold registerUser. rewrite Hcheck.
  unfold mbind at 1. unfold Handler_bind at 1.
  unfold findOne at 1. unfold_monad. simpl.
  destruct (first_match _ _ _) as [existing|] eqn:Hfind; simpl.
  { eexists _, _, []. repeat split; try done. }
  destruct (truthy (reg_avatar_path req)) eqn:Havatar; simpl.
  2:{ eexists _, _, []. split; [reflexivity|]. split; [done|]. split; [done|].
      intros _ Hcontra. discriminate. }
  destruct (uploadOnCloudinary (reg_avatar_path req)) as [url|] eqn:Hup; simpl.
  2:{ eexists _, _, []. split; [reflexivity|]. split; [done|]. split; [done|].
      intros _ _ url Hcontra. discriminate. }
  destruct (reg_username req) as [name|] eqn:Hname; simpl.
  - unfold create. unfold_monad. simpl.
    destruct (reg_fullName req), (reg_email req), (reg_password req); simpl;
      try (destruct (store_writable env); simpl; try destruct (_ || _); simpl);
      eexists _, _, _;
      (split; [reflexivity|]); (split; [done|]);
      (split; [simpl; rewrite <- !app_assoc; reflexivity|]);
      intros _ _ url0 [= <-]; eexists _, _; (split; [reflexivity|]); simpl; done.
  - eexists _, _, []. split; [reflexivity|]. split; [done|]. split; [done|].
    intros _ _ url0 _. done.
Qed.

(** C7. A login whose user record exists and whose password the
    Credential Verifier rejects fails with the 401 "Invalid credentials"
    error; the only call made to the collection is the lookup, so no
    token is issued and the stored documents (the refresh-token field
    among them) are as before. *)
Theorem login_password_mismatch env req w id u pw :
  truthy (login_email req) || truthy (login_username req) = true ->
  login_password req = Some pw ->
  pw <> "" ->
  first_match (login_email req) (login_username req) (users w) = Some (id, u) ->
  bcrypt_compare pw (password u) = false ->
  exists w',
    loginUser env req w = (Threw (ApiError 401 "Invalid credentials"), w')
    /\ users w' = users w
    /\ calls w' = (calls w ++ [CallFindOne (login_email req) (login_username req)])%list.
Proof.
  intros Hident Hpw Hne Hfind Hrej.
  eexists. unfold loginUser. rewrite Hpw.
  assert (Htr : truthy (Some pw) = true).
  { simpl. apply negb_true_iff. by apply String.eqb_neq. }
  rewrite Htr.
  destruct (truthy (login_email req)), (truthy (login_username req));
    try discriminate; simpl;
    unfold_monad; simpl; rewrite Hfind; simpl; rewrite Hrej; simpl; done.
Qed.

End Properties.

(* ===================================================================== *)
(** ** The properties on the concrete deployment                         *)
(* ===================================================================== *)

(** C1 at the failing input. alice holds the session opened at clock
    reading 100 and logs out at 200. The logout answers 200, but the
    update it sends sets only an [undefined] value, which is dropped, so
    her document still holds the refresh token; a refresh presenting that
    token at 300 is accepted and hands out a new pair. *)
Theorem logout_leaves_refresh_token_valid :
  let run := logoutUser (Demo.at_time 200) Demo.alice_id (Demo.logged_in 100) in
  status <$> (match fst run with Returned r => Some r | Threw _ => None end) = Some 200
  /\ refreshToken <$> (users (snd run) !! Demo.alice_id)
     = Some (Some (Demo.alice_token 100))
  /\ thrown (Demo.refresh 300 (Demo.alice_token 100) (snd run)) = None
  /\ handed_out (Demo.refresh 300 (Demo.alice_token 100) (snd run))
     = Some (Demo.alice_token 300).
Proof. vm_compute. repeat split; reflexivity. Qed.

(** C2 as stated fails: alice logs in at clock reading 100 and presents
    the returned refresh token at the same reading. The refresh succeeds
    and hands back the very token it was given, that token stays in the
    record, and presenting it a second time succeeds again. *)
Lemma refresh_replay_accepted_at_same_clock :
  let t := Demo.alice_token 100 in
  let w1 := snd (Demo.login 100 Demo.world0) in
  let w2 := snd (Demo.refresh 100 t w1) in
  handed_out (Demo.login 100 Demo.world0) = Some t
  /\ handed_out (Demo.refresh 100 t w1) = Some t
  /\ refreshToken <$> (users w2 !! Demo.alice_id) = Some (Some t)
  /\ handed_out (Demo.refresh 100 t w2) = Some t
  /\ thrown (Demo.refresh 100 t w2) = None.
Proof. vm_compute. repeat split; reflexivity. Qed.

Lemma refresh_replay_rejected_witness :
  exists r w1,
    refreshAccessToken (C := Demo.deployment) (Demo.at_time 200)
      (Demo.present (Demo.alice_token 100)) (Demo.logged_in 100) = (Returned r, w1)
    /\ issued_refreshToken r = Some (Demo.alice_token 200)
    /\ (exists uid u, token_subject (Demo.alice_token 100) = Some uid
                      /\ users w1 !! uid = Some u
                      /\ refreshToken u = Some (Demo.alice_token 200))
    /\ forall env2, exists m w2,
         refreshAccessToken (C := Demo.deployment) env2
           (Demo.present (Demo.alice_token 100)) w1 = (Threw (ApiError 401 m), w2).
Proof.
  eexists _, _. split; [vm_compute; reflexivity|]. split; [reflexivity|].
  eapply (refresh_replay_rejected (C := Demo.deployment) (Demo.at_time 200)
            (Demo.present (Demo.alice_token 100)) (Demo.logged_in 100) _ _
            (Demo.alice_token 100) (Demo.alice_token 200)).
  - reflexivity.
  - vm_compute. reflexivity.
  - reflexivity.
  - discriminate.
Defined.

(** C3 as stated fails: alice logs in twice at clock reading 100. Both
    logins issue the same refresh token, so the token of the prior login
    is the one stored after the second, and a refresh presenting it is
    accepted. *)
Lemma prior_login_token_accepted_at_same_clock :
  let prior := handed_out (Demo.login 100 Demo.world0) in
  let w1 := snd (Demo.login 100 Demo.world0) in
  let w2 := snd (Demo.login 100 w1) in
  prior = Some (Demo.alice_token 100)
  /\ handed_out (Demo.login 100 w1) = prior
  /\ thrown (Demo.refresh 150 (Demo.alice_token 100) w2) = None
  /\ handed_out (Demo.refresh 150 (Demo.alice_token 100) w2) = Some (Demo.alice_token 150).
Proof. vm_compute. repeat split; reflexivity. Qed.

Lemma login_supersedes_other_tokens_witness :
  exists r w1,
    loginUser (C := Demo.deployment) (Demo.at_time 200) Demo.alice_login (Demo.logged_in 100)
    = (Returned r, w1)
    /\ exists uid u t2,
         issued_refreshToken r = Some t2
         /\ token_subject t2 = Some uid
         /\ users w1 !! uid = Some u
         /\ refreshToken u = Some t2
         /\ (forall env' req' t1,
               incoming req' = Some t1 ->
               token_subject t1 = Some uid ->
               t1 <> t2 ->
               exists m w2,
                 refreshAccessToken (C := Demo.deployment) env' req' w1
                 = (Threw (ApiError 401 m), w2))
         /\ (forall env0 env' req',
               now env0 <> 200 ->
               incoming req' = Some (generateRefreshToken (C := Demo.deployment) env0 uid) ->
               exists m w2,
                 refreshAccessToken (C := Demo.deployment) env' req' w1
                 = (Threw (ApiError 401 m), w2)).
Proof.
  eexists _, _. split; [vm_compute; reflexivity|].
  eapply (login_supersedes_other_tokens (C := Demo.deployment) (Demo.at_time 200)
            Demo.alice_login (Demo.logged_in 100)).
  vm_compute. reflexivity.
Defined.

(** C4 as stated fails: alice logs in at clock reading 100 and refreshes
    at once, at the same reading. The refresh succeeds, and the refresh
    token it returns is the one it was given. *)
Lemma refresh_at_login_clock_returns_same_token :
  let w1 := snd (Demo.login 100 Demo.world0) in
  handed_out (Demo.login 100 Demo.world0) = Some (Demo.alice_token 100)
  /\ thrown (Demo.refresh 100 (Demo.alice_token 100) w1) = None
  /\ handed_out (Demo.refresh 100 (Demo.alice_token 100) w1) = Some (Demo.alice_token 100).
Proof. vm_compute. repeat split; reflexivity. Qed.

Lemma login_then_refresh_rotates_witness :
  exists r1 w1 t1,
    loginUser (C := Demo.deployment) (Demo.at_time 100) Demo.alice_login Demo.world0
    = (Returned r1, w1)
    /\ issued_refreshToken r1 = Some t1
    /\ forall req2,
         incoming req2 = Some t1 ->
         exists r2 w2 t2,
           refreshAccessToken (C := Demo.deployment) (Demo.at_time 101) req2 w1
           = (Returned r2, w2)
           /\ issued_refreshToken r2 = Some t2
           /\ (t2 <> t1 <-> 101 <> 100).
Proof.
  apply (login_then_refresh_rotates (C := Demo.deployment) (Demo.at_time 100)
           (Demo.at_time 101) Demo.alice_login Demo.world0 Demo.alice_id Demo.alice
           "wonderland").
  - reflexivity.
  - reflexivity.
  - discriminate.
  - vm_compute. reflexivity.
  - reflexivity.
  - reflexivity.
  - reflexivity.
  - simpl. lia.
Defined.

Lemma expired_refresh_distinguishable_witness :
  refreshAccessToken (C := Demo.deployment) (Demo.at_time 900000)
    (Demo.present (Demo.alice_token 100)) (Demo.logged_in 100)
  = (Threw (ApiError 401 "jwt expired"), Demo.logged_in 100)
  /\ forall env' req' w' e w'',
       refreshAccessToken (C := Demo.deployment) env' req' w' = (Threw e, w'') ->
       exn_message e = "jwt expired" ->
       exists p', incoming req' = Some (Signed "refresh-secret" p') /\ exp p' <= now env'.
Proof.
  apply (expired_refresh_distinguishable (C := Demo.deployment) (Demo.at_time 900000)
           (Demo.present (Demo.alice_token 100)) (Demo.logged_in 100)
           (mkPayload Demo.alice_id 100 864100)).
  - reflexivity.
  - simpl. lia.
Defined.

(** C6 at the failing input. alice holds the session opened at clock
    reading 100 and the collection rejects writes. A login then ends with
    the 500 error of [generateAccessAndRefreshTokens]; a refresh
    presenting the valid token has that same error caught and rethrown
    with status 401, the status of every authentication failure. *)
Theorem refresh_write_failure_reported_as_401 :
  thrown (loginUser (C := Demo.deployment) (Demo.store_down 200) Demo.alice_login
            (Demo.logged_in 100))
  = Some (ApiError 500 "Something went wrong while generating tokens")
  /\ thrown (refreshAccessToken (C := Demo.deployment) (Demo.store_down 200)
               (Demo.present (Demo.alice_token 100)) (Demo.logged_in 100))
     = Some (ApiError 401 "Something went wrong while generating tokens")
  /\ thrown (refreshAccessToken (C := Demo.deployment) (Demo.at_time 200)
               (Demo.present (Demo.alice_token 100)) (Demo.logged_in 100))
     = None.
Proof. vm_compute. repeat split; reflexivity. Qed.

Lemma login_password_mismatch_witness :
  exists w',
    loginUser (C := Demo.deployment) (Demo.at_time 200) Demo.alice_wrong_password
      (Demo.logged_in 100)
    = (Threw (ApiError 401 "Invalid credentials"), w')
    /\ users w' = users (Demo.logged_in 100)
    /\ calls w' = (calls (Demo.logged_in 100) ++ [CallFindOne None (Some "alice")])%list.
Proof.
  apply (login_password_mismatch (C := Demo.deployment) (Demo.at_time 200)
           Demo.alice_wrong_password (Demo.logged_in 100) Demo.alice_id
           (set_refreshToken (Some (Demo.alice_token 100)) Demo.alice) "looking-glass").
  - reflexivity.
  - reflexivity.
  - discriminate.
  - vm_compute. reflexivity.
  - reflexivity.
Defined.

Lemma changePassword_keeps_sessions_witness :
  exists r w1,
    changeCurrentPassword (C := Demo.deployment) (Demo.at_time 200) Demo.alice_new_password
      (Demo.logged_in 100) = (Returned r, w1)
    /\ (exists u new,
           users (Demo.logged_in 100) !! Demo.alice_id = Some u
           /\ Some "looking-glass" = Some new
           /\ users w1 = <[Demo.alice_id := set_password (Demo.hash new) u]>
                           (users (Demo.logged_in 100)))
    /\ (forall id, refreshToken <$> (users w1 !! id)
                   = refreshToken <$> (users (Demo.logged_in 100) !! id))
    /\ (forall env' req' r' w',
          refreshAccessToken (C := Demo.deployment) env' req' (Demo.logged_in 100)
          = (Returned r', w') ->
          exists w1', refreshAccessToken (C := Demo.deployment) env' req' w1
                      = (Returned r', w1')).
Proof.
  eexists _, _. split; [vm_compute; reflexivity|].
  eapply (changePassword_keeps_sessions (C := Demo.deployment) (Demo.at_time 200)
            Demo.alice_new_password (Demo.logged_in 100)).
  vm_compute. reflexivity.
Defined.

Lemma login_projection_sanitized_witness :
  exists r w1,
    loginUser (C := Demo.deployment) (Demo.at_time 100) Demo.alice_login Demo.world0
    = (Returned r, w1)
    /\ exists d id,
         returned_user r = Some d
         /\ is_Some (users w1 !! id)
         /\ d !! "_id" = Some (VId id)
         /\ d !! "password" = None
         /\ d !! "refreshToken" = None.
Proof.
  eexists _, _. split; [vm_compute; reflexivity|].
  eapply (login_projection_sanitized (C := Demo.deployment) (Demo.at_time 100)
            Demo.alice_login Demo.world0).
  vm_compute. reflexivity.
Defined.

(** C10 as stated fails: a registration whose body has no username and
    is otherwise complete passes the required-fields check and the
    duplicate lookup, and then ends in a TypeError; the lookup is the only
    call the collection receives, no create among them, and no record is
    added. *)
Lemma register_without_username_never_creates :
  let run := registerUser (C := Demo.deployment) (Demo.at_time 100)
               Demo.bob_without_username Demo.world0 in
  existsb blank [reg_fullName Demo.bob_without_username;
                 reg_email Demo.bob_without_username;
                 reg_username Demo.bob_without_username;
                 reg_password Demo.bob_without_username] = false
  /\ thrown run
     = Some (TypeError "Cannot read properties of undefined (reading 'toLowerCase')")
  /\ calls (snd run) = [CallFindOne (Some "bob@example.com") None]
  /\ users (snd run) = users Demo.world0.
Proof. vm_compute. repeat split; reflexivity. Qed.

Lemma register_absent_fields_witness :
  exists out w' rest,
    registerUser (C := Demo.deployment) (Demo.at_time 100) Demo.bob_without_fullName
      Demo.world0 = (out, w')
    /\ out <> Threw (ApiError 400 "All fields are required")
    /\ calls w' = (calls Demo.world0
                   ++ CallFindOne (Some "bob@example.com") (Some "Bob") :: rest)%list
    /\ (first_match (Some "bob@example.com") (Some "Bob") (users Demo.world0) = None ->
        truthy (Some "bob.png") = true ->
        forall url,
          Demo.upload (Some "bob.png") = Some url ->
          exists doc rest',
            rest = CallCreate doc :: rest'
            /\ new_fullName doc = None
            /\ new_email doc = Some "bob@example.com"
            /\ new_password doc = Some "builder"
            /\ new_avatar doc = url
            /\ new_coverImage doc = default "" (Demo.upload None)
            /\ (is_ascii "Bob" = true -> new_username doc = toLowerCase "Bob")).
Proof.
  apply (register_absent_fields (C := Demo.deployment) (Demo.at_time 100)
           Demo.bob_without_fullName Demo.world0).
  repeat (constructor; [vm_compute; try exact I; discriminate|]). constructor.
Defined.

(* ===================================================================== *)
(** ** Strings: blank fields and public ids                              *)
(* ===================================================================== *)




(** Lowering a byte changes nothing in how the scan for white space
    reads it. *)
Lemma step_lower p c : step p (lower_ascii c) = step p c.
Proof. destruct p; destruct c as [[] [] [] [] [] [] [] []]; reflexivity. Qed.

Lemma skip_whitespace_lower s : forall p keep,
  skip_whitespace p (toLowerCase keep) (toLowerCase s)
  = toLowerCase (skip_whitespace p keep s).
Proof.
  induction s as [|c r IH]; intros p keep; [done|].
  cbn [toLowerCase skip_whitespace].
  rewrite step_lower. destruct (step p c); [apply IH|apply IH|done].
Qed.

Lemma trimStart_lower s : trimStart (toLowerCase s) = toLowerCase (trimStart s).
Proof. apply skip_whitespace_lower. Qed.

Lemma toLowerCase_empty s : String.eqb (toLowerCase s) "" = String.eqb s "".
Proof. by destruct s. Qed.

Lemma trimEnd_lower s : trimEnd (toLowerCase s) = toLowerCase (trimEnd s).
Proof.
  induction s as [|c r IH]; [done|].
  change (toLowerCase (String c r)) with (String (lower_ascii c) (toLowerCase r)) at 1.
  cbn [trimEnd].
  change (String (lower_ascii c) (toLowerCase r)) with (toLowerCase (String c r)).
  rewrite trimStart_lower, toLowerCase_empty.
  destruct (String.eqb (trimStart (String c r)) ""); [done|].
  simpl. by rewrite IH.
Qed.

(** Trimming and lowering commute. *)
Lemma trim_lower s : trim (toLowerCase s) = toLowerCase (trim s).
Proof. unfold trim. by rewrite trimStart_lower, trimEnd_lower. Qed.

Lemma is_whitespace_lower c : is_whitespace (lower_ascii c) = is_whitespace c.
Proof. destruct c as [[] [] [] [] [] [] [] []]; reflexivity. Qed.

Lemma lower_ascii_idem c : lower_ascii (lower_ascii c) = lower_ascii c.
Proof. destruct c as [[] [] [] [] [] [] [] []]; reflexivity. Qed.

Lemma toLowerCase_idem s : toLowerCase (toLowerCase s) = toLowerCase s.
Proof. induction s as [|c r IH]; simpl; [done|]. by rewrite lower_ascii_idem, IH. Qed.

Lemma split_on_nonempty sep s : split_on sep s <> [].
Proof.
  destruct s as [|c r]; simpl; [done|].
  destruct (Ascii.eqb c sep); [done|]. by destruct (split_on sep r).
Qed.

Lemma split_on_without_sep sep s : occurs sep s = false -> split_on sep s = [s].
Proof.
  induction s as [|c r IH]; simpl; [done|].
  intros Hocc. apply orb_false_iff in Hocc as [Hc Hr].
  rewrite Hc, (IH Hr). done.
Qed.

(** Splitting a string that has a separator in it: the pieces before
    the separator, then the pieces after it. *)
Lemma split_on_app sep a b :
  split_on sep (a ++ String sep b) = (split_on sep a ++ split_on sep b)%list.
Proof.
  induction a as [|c r IH]; simpl.
  - by rewrite Ascii.eqb_refl.
  - destruct (Ascii.eqb c sep); [by rewrite IH|].
    rewrite IH. pose proof (split_on_nonempty sep r) as Hne.
    by destruct (split_on sep r).
Qed.

Lemma occurs_app c a b : occurs c (a ++ b) = occurs c a || occurs c b.
Proof. induction a as [|d r IH]; simpl; [done|]. by rewrite IH, orb_assoc. Qed.

(** No piece of a split contains the separator, and a piece contains
    only characters of the string it was cut from. *)
Lemma split_on_pieces sep s piece :
  In piece (split_on sep s) ->
  occurs sep piece = false /\ forall c, occurs c piece = true -> occurs c s = true.
Proof.
  revert piece. induction s as [|d r IH]; simpl; intros piece Hin.
  - destruct Hin as [<-|[]]. done.
  - destruct (Ascii.eqb d sep) eqn:Hd.
    + destruct Hin as [<-|Hin]; [done|].
      destruct (IH _ Hin) as [Hsep Hsub]. split; [done|].
      intros c Hc. rewrite (Hsub c Hc). apply orb_true_r.
    + pose proof (split_on_nonempty sep r) as Hne.
      destruct (split_on sep r) as [|p ps]; [done|].
      destruct Hin as [<-|Hin].
      * destruct (IH p (or_introl eq_refl)) as [Hsep Hsub]. simpl. rewrite Hd, Hsep.
        split; [done|]. intros c Hc. apply orb_true_iff in Hc as [Hc|Hc].
        -- by rewrite Hc.
        -- rewrite (Hsub c Hc). apply orb_true_r.
      * destruct (IH piece (or_intror Hin)) as [Hsep Hsub]. split; [done|].
        intros c Hc. rewrite (Hsub c Hc). apply orb_true_r.
Qed.

(** X1. For a URL of the shape [dir/name.ext], where the name has no
    slash and no dot and the extension no slash, the public id handed to
    the media store is [name]: the last path segment, cut at its first
    dot. *)
Theorem public_id_of_url dir name ext :
  occurs "/" name = false ->
  occurs "." name = false ->
  occurs "/" ext = false ->
  public_id_of (dir ++ "/" ++ name ++ "." ++ ext) = name.
Proof.
  intros Hslash Hdot Hext. unfold public_id_of.
  change (dir ++ "/" ++ name ++ "." ++ ext)
    with (dir ++ String "/" (name ++ String "." ext)).
  rewrite split_on_app.
  rewrite (split_on_without_sep "/" (name ++ String "." ext)).
  2:{ rewrite occurs_app. simpl. by rewrite Hslash, Hext. }
  rewrite last_snoc. simpl.
  rewrite split_on_app, (split_on_without_sep "." name Hdot). done.
Qed.

Lemma public_id_of_url_witness :
  public_id_of ("https://res.cloudinary.com/demo/image/upload/v1" ++ "/" ++ "carol"
                ++ "." ++ "small.png") = "carol".
Proof.
  apply (public_id_of_url "https://res.cloudinary.com/demo/image/upload/v1" "carol"
           "small.png"); reflexivity.
Defined.

(** X2. Whatever the stored URL, the public id computed from it contains
    neither a slash nor a dot: a folder in front of the asset name and
    everything after the first dot of the name are dropped. *)
Theorem public_id_has_no_separator url :
  occurs "/" (public_id_of url) = false /\ occurs "." (public_id_of url) = false.
Proof.
  unfold public_id_of.
  assert (Hseg : occurs "/" (default "" (last (split_on "/" url))) = false).
  { destruct (last (split_on "/" url)) as [seg|] eqn:Hlast; [|done].
    apply last_Some_elem_of, list_elem_of_In in Hlast.
    by apply split_on_pieces in Hlast as [? _]. }
  set (seg := default "" (last (split_on "/" url))) in *.
  pose proof (split_on_nonempty "." seg) as Hne.
  destruct (split_on "." seg) as [|id ids] eqn:Hsplit; [done|]. simpl.
  assert (Hin : In id (split_on "." seg)) by (rewrite Hsplit; by left).
  apply split_on_pieces in Hin as [Hdot Hsub]. split; [|done].
  destruct (occurs "/" id) eqn:Hid; [|done].
  by rewrite (Hsub _ Hid) in Hseg.
Qed.

(* ===================================================================== *)
(** ** The session handlers, case by case                                *)
(* ===================================================================== *)

Ltac split_cases := repeat (cbv zeta; case_match); simpl; auto.

Section Sessions.
Context {C : Collaborators}.

(** Every path of [loginUser]. *)
Lemma loginUser_eq env req w :
  loginUser env req w =
  if negb (truthy (login_email req)) && negb (truthy (login_username req))
     || negb (truthy (login_password req))
  then (Threw (ApiError 400 "Email/Username and password required"), w)
  else
    let lookup := CallFindOne (login_email req) (login_username req) in
    match first_match (login_email req) (login_username req) (users w),
          login_password req with
    | None, _ => (Threw (ApiError 404 "User does not exist"), logged [lookup] w)
    | Some (id, u), None =>
        (Threw (BcryptError "data and hash arguments required"), logged [lookup] w)
    | Some (id, u), Some pw =>
        if bcrypt_compare pw (password u) then
          if store_writable env then
            (Returned
               (login_response
                  (Some (select "-password -refreshToken"
                           (toObject id (set_refreshToken
                                           (Some (generateRefreshToken env id)) u))))
                  (generateAccessToken env id) (generateRefreshToken env id)),
             {| users := <[id := set_refreshToken (Some (generateRefreshToken env id)) u]>
                           (users w);
                calls := calls w ++ [lookup; CallFindById id; CallSave id; CallFindById id] |})
          else
            (Threw (ApiError 500 "Something went wrong while generating tokens"),
             logged [lookup; CallFindById id; CallSave id] w)
        else (Threw (ApiError 401 "Invalid credentials"), logged [lookup] w)
    end.
Proof.
  unfold loginUser, logged.
  destruct (_ || _); [done|].
  unfold mbind at 1. unfold Handler_bind at 1.
  unfold findOne at 1. unfold_monad. simpl.
  destruct (first_match _ _ _) as [[id u]|] eqn:Hfind; simpl; [|done].
  destruct (login_password req) as [pw|]; simpl; [|done].
  destruct (bcrypt_compare pw (password u)); simpl; [|done].
  pose proof (generateAccessAndRefreshTokens_eq env id
                {| users := users w;
                   calls := (calls w ++ [CallFindOne (login_email req) (login_username req)])%list |})
    as Hgen.
  simpl in Hgen. rewrite (first_match_lookup _ _ _ _ _ Hfind) in Hgen.
  unfold mbind, Handler_bind in Hgen |- *.
  rewrite Hgen.
  destruct (store_writable env); simpl.
  - rewrite lookup_insert_eq. simpl. by rewrite <- !app_assoc.
  - by rewrite <- !app_assoc.
Qed.

(** Every path of [refreshAccessToken]. *)
Lemma refreshAccessToken_eq env req w :
  refreshAccessToken env req w =
  match incoming req with
  | None => (Threw (ApiError 401 "No refresh token found"), w)
  | Some t =>
      if negb (token_truthy (Some t))
      then (Threw (ApiError 401 "No refresh token found"), w)
      else
        match jwt_verify (now env) t REFRESH_TOKEN_SECRET with
        | inl e => (Threw (ApiError 401 (message_or_default e)), w)
        | inr p =>
            let id := claim_id p in
            match users w !! id with
            | None => (Threw (ApiError 401 "Invalid refresh token"), logged [CallFindById id] w)
            | Some u =>
                if bool_decide (Some t = refreshToken u) then
                  if store_writable env then
                    (Returned (tokens_response (generateAccessToken env id)
                                 (generateRefreshToken env id)),
                     {| users := <[id := set_refreshToken
                                           (Some (generateRefreshToken env id)) u]> (users w);
                        calls := calls w ++ [CallFindById id; CallFindById id; CallSave id] |})
                  else
                    (Threw (ApiError 401 "Something went wrong while generating tokens"),
                     logged [CallFindById id; CallFindById id; CallSave id] w)
                else (Threw (ApiError 401 "Expired or invalid refresh token"),
                      logged [CallFindById id] w)
            end
        end
  end.
Proof.
  unfold refreshAccessToken, logged.
  destruct (incoming req) as [t|] eqn:Hin; [|done].
  destruct (token_truthy (Some t)); [|done].
  cbn [negb].
  unfold try_catch.
  destruct (jwt_verify (now env) t REFRESH_TOKEN_SECRET) as [e|p]; [done|].
  unfold_monad. simpl.
  destruct (users w !! claim_id p) as [u|] eqn:Hu; simpl; [|done].
  case_bool_decide as Hcmp; case_bool_decide as Hcmp'; try done; simpl.
  pose proof (generateAccessAndRefreshTokens_eq env (claim_id p)
                {| users := users w; calls := (calls w ++ [CallFindById (claim_id p)])%list |})
    as Hgen.
  simpl in Hgen. rewrite Hu in Hgen.
  unfold mbind, Handler_bind in Hgen |- *.
  rewrite Hgen.
  destruct (store_writable env); simpl; by rewrite <- !app_assoc.
Qed.

Lemma logoutUser_eq env id w :
  logoutUser env id w =
  if store_writable env then
    (Returned {| status := 200;
                 cookies := [ClearCookie "accessToken" cookie_options;
                             ClearCookie "refreshToken" cookie_options];
                 json := {| statusCode := 200; data := DataEmpty;
                            message := "User logged out successfully" |} |},
     {| users := users w;
        calls := calls w ++ [CallFindByIdAndUpdate id] |})
  else (Threw (MongoError "write failed"), logged [CallFindByIdAndUpdate id] w).
Proof.
  unfold logoutUser, logged. unfold_monad. simpl.
  destruct (store_writable env); simpl; [|done].
  f_equal. f_equal. by apply alter_id.
Qed.

(** Every path of [changeCurrentPassword]. *)
Lemma changeCurrentPassword_eq env req w :
  changeCurrentPassword env req w =
  let id := req_user_id req in
  match users w !! id with
  | None => (Threw (TypeError "Cannot read properties of null (reading 'isPasswordCorrect')"),
             logged [CallFindById id] w)
  | Some u =>
      match oldpassword req with
      | None => (Threw (BcryptError "data and hash arguments required"),
                 logged [CallFindById id] w)
      | Some old =>
          if bcrypt_compare old (password u) then
            match newPassword req with
            | None => (Threw (BcryptError "data and salt arguments required"),
                       logged [CallFindById id] w)
            | Some new =>
                if store_writable env then
                  (Returned {| status := 200; cookies := [];
                               json := {| statusCode := 200; data := DataEmpty;
                                          message := "Password changed successfully." |} |},
                   {| users := <[id := set_password (bcrypt_hash new) u]> (users w);
                      calls := calls w ++ [CallFindById id; CallSave id] |})
                else (Threw (MongoError "write failed"),
                      logged [CallFindById id; CallSave id] w)
            end
          else (Threw (ApiError 400 "Invalid old password."), logged [CallFindById id] w)
      end
  end.
Proof.
  unfold changeCurrentPassword, logged. unfold_monad. simpl.
  destruct (users w !! req_user_id req) as [u|]; simpl; [|done].
  destruct (oldpassword req) as [old|]; simpl; [|done].
  destruct (bcrypt_compare old (password u)); simpl; [|done].
  destruct (newPassword req) as [new|]; simpl; [|done].
  destruct (store_writable env); simpl; by rewrite <- !app_assoc.
Qed.

Lemma set_refreshToken_cleared t u :
  set_refreshToken None (set_refreshToken t u) = set_refreshToken None u.
Proof. done. Qed.

Lemma matches_or_spec e n u :
  matches_or e n u = true <-> e = Some (email u) \/ n = Some (username u).
Proof.
  unfold matches_or. rewrite orb_true_iff, !bool_decide_eq_true. done.
Qed.

Lemma first_match_none e n (m : gmap N User) :
  first_match e n m = None <->
  forall i u, m !! i = Some u -> matches_or e n u = false.
Proof.
  unfold first_match. split.
  - intros Hnone i u Hu.
    apply (find_none _ _ Hnone (i, u)).
    apply list_elem_of_In. by apply elem_of_map_to_list.
  - intros Hall. destruct (find _ _) as [[i u]|] eqn:Hfind; [|done].
    apply find_some in Hfind as [Hin Hmatch]. simpl in Hmatch.
    apply list_elem_of_In, elem_of_map_to_list in Hin.
    by rewrite (Hall i u Hin) in Hmatch.
Qed.

(** When one stored record alone matches the filter, the lookup finds
    that record. *)
Lemma first_match_unique e n (m : gmap N User) id u :
  m !! id = Some u ->
  matches_or e n u = true ->
  (forall j v, m !! j = Some v -> matches_or e n v = true -> j = id) ->
  first_match e n m = Some (id, u).
Proof.
  intros Hu Hmatch Huniq.
  destruct (first_match e n m) as [[j v]|] eqn:Hfind.
  - pose proof (first_match_lookup _ _ _ _ _ Hfind) as Hv.
    unfold first_match in Hfind. apply find_some in Hfind as [_ Hmv]. simpl in Hmv.
    rewrite (Huniq j v Hv Hmv) in Hv |- *. congruence.
  - rewrite first_match_none in Hfind. by rewrite (Hfind id u Hu) in Hmatch.
Qed.

(** X3. A call to a session handler that ends in an error leaves every
    stored user document as it was. Refresh, logout, password change and
    token generation either return or change nothing. Login reads the
    document once more after the tokens are stored, so for login this is
    stated of the errors the handler and the token generation raise
    themselves, the [ApiError]s: a login that ends in one of them has
    changed nothing. *)
Theorem failed_call_changes_no_user env w :
  (forall req code text,
      fst (loginUser env req w) = Threw (ApiError code text) ->
      users (snd (loginUser env req w)) = users w)
  /\ (forall req, thrown (refreshAccessToken env req w) = None
                  \/ users (snd (refreshAccessToken env req w)) = users w)
  /\ (forall id, thrown (logoutUser env id w) = None
                 \/ users (snd (logoutUser env id w)) = users w)
  /\ (forall req, thrown (changeCurrentPassword env req w) = None
                  \/ users (snd (changeCurrentPassword env req w)) = users w)
  /\ (forall id, thrown (generateAccessAndRefreshTokens env id w) = None
                 \/ users (snd (generateAccessAndRefreshTokens env id w)) = users w).
Proof.
  repeat split.
  - intros req code text. rewrite loginUser_eq. split_cases; simplify_eq; done.
  - intros x. rewrite refreshAccessToken_eq. split_cases.
  - intros x. rewrite logoutUser_eq. split_cases.
  - intros x. rewrite changeCurrentPassword_eq. split_cases.
  - intros x. rewrite generateAccessAndRefreshTokens_eq. split_cases.
Qed.

(** X4. Login, refresh and logout change no field of any stored document
    but its refresh token, and a password change changes no field but the
    password; none of them adds or removes a document. *)
Theorem session_calls_touch_one_field env w id :
  (forall req, set_refreshToken None <$> (users (snd (loginUser env req w)) !! id)
               = set_refreshToken None <$> (users w !! id))
  /\ (forall req, set_refreshToken None <$> (users (snd (refreshAccessToken env req w)) !! id)
                  = set_refreshToken None <$> (users w !! id))
  /\ (forall uid, set_refreshToken None <$> (users (snd (logoutUser env uid w)) !! id)
                  = set_refreshToken None <$> (users w !! id))
  /\ (forall req, set_password "" <$> (users (snd (changeCurrentPassword env req w)) !! id)
                  = set_password "" <$> (users w !! id)).
Proof.
  repeat split; intros x.
  - rewrite loginUser_eq.
    destruct (first_match _ _ _) as [[i u]|] eqn:Hfind; repeat case_match; simpl; try done.
    apply first_match_lookup in Hfind.
    destruct (decide (i = id)) as [->|Hne].
    + by rewrite lookup_insert_eq, Hfind.
    + by rewrite lookup_insert_ne.
  - rewrite refreshAccessToken_eq.
    destruct (incoming x) as [t|]; [|done].
    destruct (negb _); [done|].
    destruct (jwt_verify _ _ _) as [e|p]; [done|]. cbv zeta.
    destruct (users w !! claim_id p) as [u|] eqn:Hu; [|done].
    repeat case_match; simpl; try done.
    destruct (decide (claim_id p = id)) as [<-|Hne].
    + by rewrite lookup_insert_eq, Hu.
    + by rewrite lookup_insert_ne.
  - rewrite logoutUser_eq. by destruct (store_writable env).
  - rewrite changeCurrentPassword_eq. cbv zeta.
    destruct (users w !! req_user_id x) as [u|] eqn:Hu; [|done].
    repeat case_match; simpl; try done.
    destruct (decide (req_user_id x = id)) as [<-|Hne].
    + by rewrite lookup_insert_eq, Hu.
    + by rewrite lookup_insert_ne.
Qed.

(** X5. Each session handler changes the document of at most one user:
    login that of the user its lookup finds, refresh that of the user the
    presented token names, logout and password change that of the caller.
    Every other user's document, session included, is untouched. *)
Theorem session_calls_touch_one_user env w id :
  (forall req, users (snd (loginUser env req w)) !! id = users w !! id
               \/ fst <$> first_match (login_email req) (login_username req) (users w)
                  = Some id)
  /\ (forall req, users (snd (refreshAccessToken env req w)) !! id = users w !! id
                  \/ token_subject <$> incoming req = Some (Some id))
  /\ (forall uid, users (snd (logoutUser env uid w)) !! id = users w !! id \/ uid = id)
  /\ (forall req, users (snd (changeCurrentPassword env req w)) !! id = users w !! id
                  \/ req_user_id req = id).
Proof.
  repeat split; intros x.
  - rewrite loginUser_eq.
    destruct (first_match _ _ _) as [[i u]|] eqn:Hfind; repeat case_match; simpl; auto.
    destruct (decide (i = id)) as [->|Hne]; [by right|].
    left. by rewrite lookup_insert_ne.
  - rewrite refreshAccessToken_eq.
    destruct (incoming x) as [t|]; [|by left].
    destruct (negb _); [by left|].
    unfold jwt_verify. destruct t as [s p|txt]; [|by left].
    split_cases; simplify_eq.
    match goal with
    | |- context [<[claim_id ?q := _]> _] =>
        destruct (decide (claim_id q = id)) as [<-|Hne]
    end.
    { right. congruence. }
    left. by rewrite lookup_insert_ne.
  - rewrite logoutUser_eq. left. by destruct (store_writable env).
  - rewrite changeCurrentPassword_eq. split_cases.
    destruct (decide (req_user_id x = id)) as [<-|Hne]; [by right|].
    left. by rewrite lookup_insert_ne.
Qed.

End Sessions.

Section SessionEdges.
Context {C : Collaborators}.

(** X6. Refreshes chain: after a refresh that returns, a later refresh
    presenting the refresh token it issued, before that token expires
    and with the store accepting writes, returns in turn, and the token it
    issues is the one then stored for the user. *)
Theorem refresh_chain env1 env2 req1 req2 w r1 w1 t1 :
  refreshAccessToken env1 req1 w = (Returned r1, w1) ->
  issued_refreshToken r1 = Some t1 ->
  incoming req2 = Some t1 ->
  store_writable env2 = true ->
  now env2 < now env1 + REFRESH_TOKEN_EXPIRY ->
  exists r2 w2 t2 uid u,
    refreshAccessToken env2 req2 w1 = (Returned r2, w2)
    /\ issued_refreshToken r2 = Some t2
    /\ token_subject t2 = Some uid
    /\ users w2 !! uid = Some u
    /\ refreshToken u = Some t2.
Proof.
  intros Hrun Hissued Hin Hw Hlive.
  apply refresh_returns_inv in Hrun as (p & u & _ & _ & Hu & _ & _ & -> & Hw1).
  simpl in Hissued. injection Hissued as <-.
  destruct (refresh_accepts env2 req2 w1
              {| claim_id := claim_id p; iat := now env1;
                 exp := now env1 + REFRESH_TOKEN_EXPIRY |}
              (set_refreshToken (Some (generateRefreshToken env1 (claim_id p))) u))
    as (r2 & w2 & Hrun2 & -> & Hw2); try done.
  { rewrite Hw1. apply lookup_insert_eq. }
  simpl in *.
  eexists _, w2, (generateRefreshToken env2 (claim_id p)), (claim_id p), _.
  split; [done|]. split; [done|]. split; [done|].
  rewrite Hw2, lookup_insert_eq. done.
Qed.

(** X7. A logout of a caller who holds no session (no such document, or
    a document without a refresh token) answers 200 all the same and
    leaves every document as it was. *)
Theorem logout_without_session env id w :
  store_writable env = true ->
  (forall u, users w !! id = Some u -> refreshToken u = None) ->
  exists r w',
    logoutUser env id w = (Returned r, w')
    /\ status r = 200
    /\ users w' = users w.
Proof.
  intros Hw Hnone. rewrite logoutUser_eq, Hw. eexists _, _.
  split; [done|]. split; done.
Qed.

(** A login whose password is missing or empty, or that names
    neither an email nor a username, is answered with the 400 error
    before any call to the collection. *)
Theorem login_missing_credentials env req w :
  truthy (login_password req) = false
  \/ (truthy (login_email req) = false /\ truthy (login_username req) = false) ->
  loginUser env req w
  = (Threw (ApiError 400 "Email/Username and password required"), w).
Proof.
  intros Hmissing. rewrite loginUser_eq.
  destruct Hmissing as [->|[-> ->]]; simpl; [|done].
  by rewrite orb_true_r.
Qed.

(** X8. A login with credentials that match no stored document is
    answered with the 404 error after the one lookup; no password is
    checked and nothing is written. *)
Theorem login_unknown_user env req w :
  truthy (login_password req) = true ->
  truthy (login_email req) || truthy (login_username req) = true ->
  (forall i u, users w !! i = Some u ->
               login_email req <> Some (email u) /\ login_username req <> Some (username u)) ->
  loginUser env req w
  = (Threw (ApiError 404 "User does not exist"),
     logged [CallFindOne (login_email req) (login_username req)] w).
Proof.
  intros Hpw Hident Hnone. rewrite loginUser_eq, Hpw.
  assert (Hguard : negb (truthy (login_email req)) && negb (truthy (login_username req))
                   || negb true = false).
  { destruct (truthy (login_email req)), (truthy (login_username req)); done. }
  rewrite Hguard. cbv zeta.
  assert (Hfind : first_match (login_email req) (login_username req) (users w) = None).
  { apply first_match_none. intros i u Hu. destruct (Hnone i u Hu) as [He Hn].
    unfold matches_or. by rewrite !bool_decide_eq_false_2. }
  by rewrite Hfind.
Qed.

(** X9. Login identifies the user by email or by username: when one
    stored document alone matches either of the two values given, a
    correct password for that document opens a session for it, whatever
    the other value is. *)
Theorem login_by_either_identifier env req w id u pw :
  truthy (login_email req) || truthy (login_username req) = true ->
  login_password req = Some pw ->
  pw <> "" ->
  users w !! id = Some u ->
  login_email req = Some (email u) \/ login_username req = Some (username u) ->
  (forall j v, users w !! j = Some v ->
               login_email req = Some (email v) \/ login_username req = Some (username v) ->
               j = id) ->
  bcrypt_compare pw (password u) = true ->
  store_writable env = true ->
  exists r w1,
    loginUser env req w = (Returned r, w1)
    /\ issued_refreshToken r = Some (generateRefreshToken env id)
    /\ users w1 = <[id := set_refreshToken (Some (generateRefreshToken env id)) u]> (users w).
Proof.
  intros Hident Hpw Hne Hu Hmatch Huniq Hok Hw.
  apply (login_accepts env req w id u pw); try done.
  apply first_match_unique; [done|apply matches_or_spec; done|].
  intros j v Hv Hmv. apply (Huniq j v Hv). by apply matches_or_spec.
Qed.

End SessionEdges.

Lemma refresh_chain_witness :
  exists r2 w2 t2 uid u,
    refreshAccessToken (C := Demo.deployment) (Demo.at_time 300)
      (Demo.present (Demo.alice_token 200))
      (snd (Demo.refresh 200 (Demo.alice_token 100) (Demo.logged_in 100)))
    = (Returned r2, w2)
    /\ issued_refreshToken r2 = Some t2
    /\ token_subject t2 = Some uid
    /\ users w2 !! uid = Some u
    /\ refreshToken u = Some t2.
Proof.
  eapply (refresh_chain (C := Demo.deployment) (Demo.at_time 200) (Demo.at_time 300)
            (Demo.present (Demo.alice_token 100)) (Demo.present (Demo.alice_token 200))
            (Demo.logged_in 100) _ _ (Demo.alice_token 200)).
  - vm_compute. reflexivity.
  - reflexivity.
  - reflexivity.
  - reflexivity.
  - simpl. lia.
Defined.

Lemma failed_call_changes_no_user_witness :
  fst (loginUser (C := Demo.deployment) (Demo.store_down 100) Demo.alice_login Demo.world0)
  = Threw (ApiError 500 "Something went wrong while generating tokens")
  /\ users (snd (loginUser (C := Demo.deployment) (Demo.store_down 100) Demo.alice_login
                   Demo.world0))
     = users Demo.world0.
Proof.
  split; [vm_compute; reflexivity|].
  apply (proj1 (failed_call_changes_no_user (C := Demo.deployment) (Demo.store_down 100)
                  Demo.world0)
           Demo.alice_login 500 "Something went wrong while generating tokens").
  vm_compute. reflexivity.
Defined.

Lemma logout_without_session_witness :
  exists r w',
    logoutUser (Demo.at_time 100) 99%N Demo.world0 = (Returned r, w')
    /\ status r = 200
    /\ users w' = users Demo.world0.
Proof.
  apply (logout_without_session (Demo.at_time 100) 99%N Demo.world0).
  - reflexivity.
  - intros u Hu. vm_compute in Hu. discriminate.
Defined.

Lemma login_missing_credentials_witness :
  loginUser (C := Demo.deployment) (Demo.at_time 100)
    {| login_email := Some "alice@example.com"; login_username := Some "alice";
       login_password := Some "" |} Demo.world0
  = (Threw (ApiError 400 "Email/Username and password required"), Demo.world0).
Proof.
  apply (login_missing_credentials (C := Demo.deployment) (Demo.at_time 100)
           {| login_email := Some "alice@example.com"; login_username := Some "alice";
              login_password := Some "" |} Demo.world0).
  left. reflexivity.
Defined.

Lemma login_unknown_user_witness :
  loginUser (C := Demo.deployment) (Demo.at_time 100) (Cases.bob_login "bob") Demo.world0
  = (Threw (ApiError 404 "User does not exist"),
     logged [CallFindOne None (Some "bob")] Demo.world0).
Proof.
  apply (login_unknown_user (C := Demo.deployment) (Demo.at_time 100)
           (Cases.bob_login "bob") Demo.world0).
  - reflexivity.
  - reflexivity.
  - intros i u Hu. cbn in Hu. apply lookup_singleton_Some in Hu as [_ <-]. split; discriminate.
Defined.

Lemma login_by_either_identifier_witness :
  exists r w1,
    loginUser (C := Demo.deployment) (Demo.at_time 100)
      {| login_email := Some "nobody@example.com"; login_username := Some "alice";
         login_password := Some "wonderland" |} Demo.world0 = (Returned r, w1)
    /\ issued_refreshToken r
       = Some (generateRefreshToken (C := Demo.deployment) (Demo.at_time 100) Demo.alice_id)
    /\ users w1 = <[Demo.alice_id :=
                      set_refreshToken
                        (Some (generateRefreshToken (C := Demo.deployment)
                                 (Demo.at_time 100) Demo.alice_id)) Demo.alice]>
                   (users Demo.world0).
Proof.
  apply (login_by_either_identifier (C := Demo.deployment) (Demo.at_time 100)
           {| login_email := Some "nobody@example.com"; login_username := Some "alice";
              login_password := Some "wonderland" |} Demo.world0 Demo.alice_id Demo.alice
           "wonderland").
  - reflexivity.
  - reflexivity.
  - discriminate.
  - reflexivity.
  - right. reflexivity.
  - intros j v Hv _. cbn in Hv. by apply lookup_singleton_Some in Hv as [<- _].
  - reflexivity.
  - reflexivity.
Defined.

(* ===================================================================== *)
(** ** Registration                                                      *)
(* ===================================================================== *)

Section Registration.
Context {C : Collaborators}.

(** The document [registerUser] hands to [User.create]. *)
Lemma registerUser_eq env req w :
  registerUser env req w =
  let lookup := CallFindOne (reg_email req) (reg_username req) in
  if existsb blank [reg_fullName req; reg_email req; reg_username req; reg_password req]
  then (Threw (ApiError 400 "All fields are required"), w)
  else
    match first_match (reg_email req) (reg_username req) (users w) with
    | Some _ =>
        (Threw (ApiError 409 "User with email/username already exists"), logged [lookup] w)
    | None =>
        if negb (truthy (reg_avatar_path req))
        then (Threw (ApiError 400 "Avatar file is required"), logged [lookup] w)
        else
          match uploadOnCloudinary (reg_avatar_path req), reg_username req with
          | None, _ => (Threw (ApiError 400 "Avatar upload failed"), logged [lookup] w)
          | Some url, None =>
              (Threw (TypeError "Cannot read properties of undefined (reading 'toLowerCase')"),
               logged [lookup] w)
          | Some url, Some name =>
              let doc := {| new_fullName := reg_fullName req;
                            new_avatar := url;
                            new_coverImage :=
                              default "" (uploadOnCloudinary (reg_coverImage_path req));
                            new_email := reg_email req;
                            new_password := reg_password req;
                            new_username := toLowerCase name |} in
              match create env doc (logged [lookup] w) with
              | (Threw e, w1) => (Threw e, w1)
              | (Returned user, w1) =>
                  (Returned {| status := 201; cookies := [];
                               json := {| statusCode := 200;
                                          data := DataUser
                                                    (select "-password -refreshToken"
                                                       <$> (toObject (fst user)
                                                              <$> users w1 !! fst user));
                                          message := "User registered successfully" |} |},
                   logged [CallFindById (fst user)] w1)
              end
          end
    end.
Proof.
  unfold registerUser, logged. cbv zeta.
  destruct (existsb _ _); [done|].
  unfold mbind at 1. unfold Handler_bind at 1.
  unfold findOne at 1. unfold_monad. simpl.
  destruct (first_match _ _ _); simpl; [done|].
  destruct (truthy (reg_avatar_path req)); simpl; [|done].
  destruct (uploadOnCloudinary (reg_avatar_path req)); simpl; [|done].
  destruct (reg_username req); simpl; [|done].
  by destruct (create _ _ _) as [[e|user] w1].
Qed.

(** Every path of the modelled [User.create]. *)
Lemma create_eq env d w :
  create env d w =
  match new_fullName d, new_email d, new_password d with
  | Some fn, Some em, Some pw =>
      if negb (store_writable env)
      then (Threw (MongoError "write failed"), logged [CallCreate d] w)
      else if bool_decide (is_Some (users w !! new_id env))
              || existsb (fun iu => matches_or (Some em) (Some (new_username d)) (snd iu))
                         (map_to_list (users w))
      then (Threw (MongoError "E11000 duplicate key error"), logged [CallCreate d] w)
      else
        let u := {| username := new_username d; email := em; fullName := fn;
                    avatar := new_avatar d; coverImage := new_coverImage d;
                    password := bcrypt_hash pw; refreshToken := None;
                    watchHistory := [] |} in
        (Returned (new_id env, u),
         {| users := <[new_id env := u]> (users w); calls := calls w ++ [CallCreate d] |})
  | _, _, _ => (Threw (ValidationError "User validation failed"), logged [CallCreate d] w)
  end.
Proof.
  unfold create, logged. unfold_monad. simpl.
  destruct (new_fullName d), (new_email d), (new_password d); simpl; try done.
  destruct (store_writable env); simpl; [|done].
  by destruct (_ || _).
Qed.


Lemma fields_pass_check (fields : list (option string)) :
  Forall absent_or_filled fields -> existsb blank fields = false.
Proof.
  induction 1 as [|f fs Hf _ IH]; simpl; [done|].
  by rewrite (blank_absent_or_filled f Hf), IH.
Qed.


(** X11. A registration whose email, or whose username exactly as typed,
    is that of a stored document is answered with the 409 error after the
    one lookup: the lookup is the only call the collection receives, no
    create is issued and the collection is as before. *)
Theorem register_duplicate env req w i v :
  Forall absent_or_filled
    [reg_fullName req; reg_email req; reg_username req; reg_password req] ->
  users w !! i = Some v ->
  reg_email req = Some (email v) \/ reg_username req = Some (username v) ->
  registerUser env req w
  = (Threw (ApiError 409 "User with email/username already exists"),
     logged [CallFindOne (reg_email req) (reg_username req)] w).
Proof.
  intros Hfields Hv Hmatch. rewrite registerUser_eq, (fields_pass_check _ Hfields). cbv zeta.
  destruct (first_match _ _ _) as [existing|] eqn:Hfind; [done|].
  rewrite first_match_none in Hfind.
  apply matches_or_spec in Hmatch. by rewrite (Hfind i v Hv) in Hmatch.
Qed.

(** X12. No user is created without a stored avatar: when the request
    carries no avatar file, or the upload of it fails, the registration
    is answered with a 400 error after the duplicate lookup, no create is
    issued and the collection is as before. *)
Theorem register_without_avatar env req w :
  Forall absent_or_filled
    [reg_fullName req; reg_email req; reg_username req; reg_password req] ->
  first_match (reg_email req) (reg_username req) (users w) = None ->
  truthy (reg_avatar_path req) = false
  \/ uploadOnCloudinary (reg_avatar_path req) = None ->
  exists m,
    registerUser env req w
    = (Threw (ApiError 400 m), logged [CallFindOne (reg_email req) (reg_username req)] w).
Proof.
  intros Hfields Hfind Havatar.
  rewrite registerUser_eq, (fields_pass_check _ Hfields), Hfind. cbv zeta.
  destruct (truthy (reg_avatar_path req)); simpl; [|eauto].
  destruct Havatar as [Hno|Hup]; [done|]. rewrite Hup. eauto.
Qed.

Lemma no_stored_match e n (m : gmap N User) :
  (forall i v, m !! i = Some v -> matches_or e n v = false) ->
  existsb (fun iu => matches_or e n (snd iu)) (map_to_list m) = false.
Proof.
  intros Hnone. destruct (existsb _ _) eqn:Hex; [|done].
  apply existsb_exists in Hex as ([i v] & Hin & Hmatch). simpl in Hmatch.
  apply list_elem_of_In, elem_of_map_to_list in Hin.
  by rewrite (Hnone i v Hin) in Hmatch.
Qed.

Lemma some_stored_match e n (m : gmap N User) i v :
  m !! i = Some v -> matches_or e n v = true ->
  existsb (fun iu => matches_or e n (snd iu)) (map_to_list m) = true.
Proof.
  intros Hv Hmatch. apply existsb_exists. exists (i, v). split; [|done].
  apply list_elem_of_In. by apply elem_of_map_to_list.
Qed.

(** X13. The duplicate check compares the username as typed, while the
    create is given its lowercase form. A registration whose username is
    written in ASCII and
    differs from a stored one only by upper-case letters therefore passes
    the check and reaches the create with the stored username; it ends in
    an error that is not one of the controller's own (no 409), and no
    document is added. *)
Theorem register_case_variant_username env req w name j v url :
  Forall absent_or_filled
    [reg_fullName req; reg_email req; reg_username req; reg_password req] ->
  reg_username req = Some name ->
  is_ascii name = true ->
  first_match (reg_email req) (Some name) (users w) = None ->
  users w !! j = Some v ->
  username v = toLowerCase name ->
  truthy (reg_avatar_path req) = true ->
  uploadOnCloudinary (reg_avatar_path req) = Some url ->
  exists e w' doc,
    registerUser env req w = (Threw e, w')
    /\ (forall c m, e <> ApiError c m)
    /\ calls w' = (calls w ++ [CallFindOne (reg_email req) (Some name); CallCreate doc])%list
    /\ new_username doc = username v
    /\ users w' = users w.
Proof.
  intros Hfields Hname _ Hfind Hv Hlower Havatar Hup.
  rewrite registerUser_eq, (fields_pass_check _ Hfields), Hname, Hfind, Havatar, Hup.
  cbv zeta. simpl negb. cbv iota. rewrite create_eq. simpl.
  destruct (reg_fullName req) as [fn|], (reg_email req) as [em|],
    (reg_password req) as [pw|]; simpl;
    try (eexists _, _, _; split; [reflexivity|]; simpl;
         rewrite <- app_assoc; repeat split; done).
  destruct (store_writable env); simpl.
  - assert (Hdup : existsb (fun iu => matches_or (Some em) (Some (toLowerCase name)) (snd iu))
                     (map_to_list (users w)) = true).
    { apply (some_stored_match _ _ _ j v Hv). apply matches_or_spec. right. by rewrite Hlower. }
    rewrite Hdup, orb_true_r.
    eexists _, _, _. split; [reflexivity|]. simpl.
    rewrite <- app_assoc. repeat split; done.
  - eexists _, _, _. split; [reflexivity|]. simpl.
    rewrite <- app_assoc. repeat split; done.
Qed.

Lemma toLowerCase_nonempty s : s <> "" -> toLowerCase s <> "".
Proof. by destruct s. Qed.

Lemma filled_nonempty s : absent_or_filled (Some s) -> s <> "".
Proof. simpl. intros Hfilled ->. by apply Hfilled. Qed.

(** What a registration that goes through does. *)
Lemma register_accepts env req w fn em name pw url :
  reg_fullName req = Some fn ->
  reg_email req = Some em ->
  reg_username req = Some name ->
  reg_password req = Some pw ->
  Forall absent_or_filled [Some fn; Some em; Some name; Some pw] ->
  (forall i v, users w !! i = Some v ->
               email v <> em /\ username v <> name /\ username v <> toLowerCase name) ->
  users w !! new_id env = None ->
  truthy (reg_avatar_path req) = true ->
  uploadOnCloudinary (reg_avatar_path req) = Some url ->
  store_writable env = true ->
  let u := {| username := toLowerCase name; email := em; fullName := fn; avatar := url;
              coverImage := default "" (uploadOnCloudinary (reg_coverImage_path req));
              password := bcrypt_hash pw; refreshToken := None; watchHistory := [] |} in
  exists r w1,
    registerUser env req w = (Returned r, w1)
    /\ status r = 201
    /\ returned_user r = Some (select "-password -refreshToken" (toObject (new_id env) u))
    /\ users w1 = <[new_id env := u]> (users w).
Proof.
  intros Hfn Hem Hname Hpw Hfields Hfree Hid Havatar Hup Hw u.
  rewrite registerUser_eq, Hfn, Hem, Hname, Hpw, (fields_pass_check _ Hfields).
  assert (Hfind : first_match (Some em) (Some name) (users w) = None).
  { apply first_match_none. intros i v Hv. destruct (Hfree i v Hv) as (He & Hn & _).
    unfold matches_or. rewrite !bool_decide_eq_false_2; [done|congruence|congruence]. }
  rewrite Hfind, Havatar, Hup. cbv zeta. simpl negb. cbv iota.
  rewrite create_eq. simpl. rewrite Hw, Hid. simpl.
  rewrite no_stored_match.
  2:{ intros i v Hv. destruct (Hfree i v Hv) as (He & _ & Hn).
      unfold matches_or. rewrite !bool_decide_eq_false_2; [done|congruence|congruence]. }
  simpl. rewrite lookup_insert_eq. simpl. eexists _, _. split; [reflexivity|].
  split; [done|]. split; [done|]. done.
Qed.

(** X14. A registration with the four fields filled, a username written
    in ASCII, an avatar that uploads, a free identifier and no stored
    document with its email or username is answered with status 201; the stored document has the
    username in lower case, the hashed password and no refresh token
    (registering opens no session), and the projection sent back names
    the new user and has no password key. *)
Theorem register_creates_user env req w fn em name pw url :
  reg_fullName req = Some fn ->
  reg_email req = Some em ->
  reg_username req = Some name ->
  is_ascii name = true ->
  reg_password req = Some pw ->
  Forall absent_or_filled [Some fn; Some em; Some name; Some pw] ->
  (forall i v, users w !! i = Some v ->
               email v <> em /\ username v <> name /\ username v <> toLowerCase name) ->
  users w !! new_id env = None ->
  truthy (reg_avatar_path req) = true ->
  uploadOnCloudinary (reg_avatar_path req) = Some url ->
  store_writable env = true ->
  exists r w1 u d,
    registerUser env req w = (Returned r, w1)
    /\ status r = 201
    /\ users w1 = <[new_id env := u]> (users w)
    /\ username u = toLowerCase name
    /\ password u = bcrypt_hash pw
    /\ refreshToken u = None
    /\ returned_user r = Some d
    /\ d !! "_id" = Some (VId (new_id env))
    /\ d !! "username" = Some (VString (toLowerCase name))
    /\ d !! "password" = None.
Proof.
  intros Hfn Hem Hname _ Hpw Hfields Hfree Hid Havatar Hup Hw.
  destruct (register_accepts env req w fn em name pw url) as (r & w1 & Hrun & Hst & Hd & Hw1);
    try done.
  eexists r, w1, _, _. split; [done|]. split; [done|]. split; [exact Hw1|].
  split; [done|]. split; [done|]. split; [done|]. split; [exact Hd|].
  rewrite select_login_projection. split; [|split].
  - rewrite !lookup_delete_ne by done. unfold toObject. simpl. apply lookup_insert_eq.
  - rewrite !lookup_delete_ne by done. unfold toObject. simpl.
    rewrite lookup_insert_ne by done. apply lookup_insert_eq.
  - apply lookup_delete_eq.
Qed.

(** X15. Login compares the username as typed with the stored one, which
    registration put in lower case. After the registration above (the
    username written in ASCII), a login
    with the lower-case username and the password opens a session; a
    login with the username as it was typed at registration, when that
    has an upper-case letter, is answered with the 404 error. *)
Theorem register_then_login env env2 req w fn em name pw url :
  reg_fullName req = Some fn ->
  reg_email req = Some em ->
  reg_username req = Some name ->
  is_ascii name = true ->
  reg_password req = Some pw ->
  Forall absent_or_filled [Some fn; Some em; Some name; Some pw] ->
  (forall i v, users w !! i = Some v ->
               email v <> em /\ username v <> name /\ username v <> toLowerCase name) ->
  users w !! new_id env = None ->
  truthy (reg_avatar_path req) = true ->
  uploadOnCloudinary (reg_avatar_path req) = Some url ->
  store_writable env = true ->
  bcrypt_compare pw (bcrypt_hash pw) = true ->
  store_writable env2 = true ->
  exists r w1,
    registerUser env req w = (Returned r, w1)
    /\ (exists r2 w2,
          loginUser env2 {| login_email := None; login_username := Some (toLowerCase name);
                            login_password := Some pw |} w1 = (Returned r2, w2)
          /\ issued_refreshToken r2 = Some (generateRefreshToken env2 (new_id env)))
    /\ (toLowerCase name <> name ->
        loginUser env2 {| login_email := None; login_username := Some name;
                          login_password := Some pw |} w1
        = (Threw (ApiError 404 "User does not exist"),
           logged [CallFindOne None (Some name)] w1)).
Proof.
  intros Hfn Hem Hname _ Hpw Hfields Hfree Hid Havatar Hup Hw Hbcrypt Hw2.
  destruct (register_accepts env req w fn em name pw url) as (r & w1 & Hrun & _ & _ & Hw1);
    try done.
  exists r, w1. split; [done|].
  rewrite !Forall_cons in Hfields. destruct Hfields as (_ & _ & Hname_ok & Hpw_ok & _).
  apply filled_nonempty in Hname_ok, Hpw_ok.
  split.
  - destruct (login_accepts env2
                {| login_email := None; login_username := Some (toLowerCase name);
                   login_password := Some pw |} w1 (new_id env)
                {| username := toLowerCase name; email := em; fullName := fn; avatar := url;
                   coverImage := default "" (uploadOnCloudinary (reg_coverImage_path req));
                   password := bcrypt_hash pw; refreshToken := None; watchHistory := [] |} pw)
      as (r2 & w2 & Hrun2 & Hissued & _); try done.
    + simpl. apply negb_true_iff, String.eqb_neq. by apply toLowerCase_nonempty.
    + simpl. rewrite Hw1. apply first_match_unique.
      * apply lookup_insert_eq.
      * apply matches_or_spec. by right.
      * intros j v Hv Hmatch. destruct (decide (new_id env = j)) as [<-|Hne]; [done|].
        rewrite lookup_insert_ne in Hv by done.
        apply matches_or_spec in Hmatch as [?|Hn]; [done|].
        destruct (Hfree j v Hv) as (_ & _ & Hlow). congruence.
    + eauto.
  - intros Hcase. rewrite loginUser_eq. simpl.
    assert (Htr : negb (String.eqb name "") = true)
      by (by apply negb_true_iff, String.eqb_neq).
    assert (Htp : negb (String.eqb pw "") = true)
      by (by apply negb_true_iff, String.eqb_neq).
    rewrite Htr, Htp. simpl.
    assert (Hfind : first_match None (Some name) (users w1) = None).
    { apply first_match_none. intros i v Hv. rewrite Hw1 in Hv.
      unfold matches_or. rewrite bool_decide_eq_false_2 by done. simpl.
      apply bool_decide_eq_false_2. intros [= Hn].
      destruct (decide (new_id env = i)) as [<-|Hne].
      - rewrite lookup_insert_eq in Hv. injection Hv as <-. simpl in Hn. congruence.
      - rewrite lookup_insert_ne in Hv by done.
        destruct (Hfree i v Hv) as (_ & Hnn & _). congruence. }
    by rewrite Hfind.
Qed.

End Registration.


Lemma register_duplicate_witness :
  registerUser (C := Demo.deployment) (Demo.at_time 100)
    {| reg_fullName := Some "Alice II"; reg_email := Some "alice2@example.com";
       reg_username := Some "alice"; reg_password := Some "mirror";
       reg_avatar_path := Some "a2.png"; reg_coverImage_path := None |} Demo.world0
  = (Threw (ApiError 409 "User with email/username already exists"),
     logged [CallFindOne (Some "alice2@example.com") (Some "alice")] Demo.world0).
Proof.
  apply (register_duplicate (C := Demo.deployment) (Demo.at_time 100)
           {| reg_fullName := Some "Alice II"; reg_email := Some "alice2@example.com";
              reg_username := Some "alice"; reg_password := Some "mirror";
              reg_avatar_path := Some "a2.png"; reg_coverImage_path := None |}
           Demo.world0 Demo.alice_id Demo.alice).
  - repeat (constructor; [vm_compute; discriminate|]). constructor.
  - reflexivity.
  - right. reflexivity.
Defined.

Lemma register_without_avatar_witness :
  exists m,
    registerUser (C := Demo.deployment) (Demo.at_time 100)
      {| reg_fullName := Some "Bob"; reg_email := Some "bob@example.com";
         reg_username := Some "Bob"; reg_password := Some "builder";
         reg_avatar_path := None; reg_coverImage_path := None |} Demo.world0
    = (Threw (ApiError 400 m),
       logged [CallFindOne (Some "bob@example.com") (Some "Bob")] Demo.world0).
Proof.
  apply (register_without_avatar (C := Demo.deployment) (Demo.at_time 100)
           {| reg_fullName := Some "Bob"; reg_email := Some "bob@example.com";
              reg_username := Some "Bob"; reg_password := Some "builder";
              reg_avatar_path := None; reg_coverImage_path := None |} Demo.world0).
  - repeat (constructor; [vm_compute; discriminate|]). constructor.
  - vm_compute. reflexivity.
  - left. reflexivity.
Defined.

Lemma register_case_variant_username_witness :
  exists e w' doc,
    registerUser (C := Demo.deployment) (Demo.at_time 100)
      {| reg_fullName := Some "Alice II"; reg_email := Some "alice2@example.com";
         reg_username := Some "Alice"; reg_password := Some "mirror";
         reg_avatar_path := Some "a2.png"; reg_coverImage_path := None |} Demo.world0
    = (Threw e, w')
    /\ (forall c m, e <> ApiError c m)
    /\ calls w' = (calls Demo.world0
                   ++ [CallFindOne (Some "alice2@example.com") (Some "Alice");
                       CallCreate doc])%list
    /\ new_username doc = username Demo.alice
    /\ users w' = users Demo.world0.
Proof.
  apply (register_case_variant_username (C := Demo.deployment) (Demo.at_time 100)
           {| reg_fullName := Some "Alice II"; reg_email := Some "alice2@example.com";
              reg_username := Some "Alice"; reg_password := Some "mirror";
              reg_avatar_path := Some "a2.png"; reg_coverImage_path := None |}
           Demo.world0 "Alice" Demo.alice_id Demo.alice
           "https://res.cloudinary.com/a2.png").
  - repeat (constructor; [vm_compute; discriminate|]). constructor.
  - reflexivity.
  - reflexivity.
  - vm_compute. reflexivity.
  - reflexivity.
  - reflexivity.
  - reflexivity.
  - reflexivity.
Defined.

Lemma register_creates_user_witness :
  exists r w1 u d,
    registerUser (C := Demo.deployment) (Demo.at_time 100) Cases.bob Demo.world0
    = (Returned r, w1)
    /\ status r = 201
    /\ users w1 = <[8%N := u]> (users Demo.world0)
    /\ username u = toLowerCase "Bob"
    /\ password u = Demo.hash "builder"
    /\ refreshToken u = None
    /\ returned_user r = Some d
    /\ d !! "_id" = Some (VId 8%N)
    /\ d !! "username" = Some (VString (toLowerCase "Bob"))
    /\ d !! "password" = None.
Proof.
  apply (register_creates_user (C := Demo.deployment) (Demo.at_time 100) Cases.bob
           Demo.world0 "Bob" "bob@example.com" "Bob" "builder"
           "https://res.cloudinary.com/bob.png").
  - reflexivity.
  - reflexivity.
  - reflexivity.
  - reflexivity.
  - reflexivity.
  - repeat (constructor; [vm_compute; discriminate|]). constructor.
  - intros i v Hv. cbn in Hv. apply lookup_singleton_Some in Hv as [_ <-].
    repeat split; discriminate.
  - reflexivity.
  - reflexivity.
  - reflexivity.
  - reflexivity.
Defined.

Lemma register_then_login_witness :
  exists r w1,
    registerUser (C := Demo.deployment) (Demo.at_time 100) Cases.bob Demo.world0
    = (Returned r, w1)
    /\ (exists r2 w2,
          loginUser (C := Demo.deployment) (Demo.at_time 200)
            {| login_email := None; login_username := Some (toLowerCase "Bob");
               login_password := Some "builder" |} w1 = (Returned r2, w2)
          /\ issued_refreshToken r2
             = Some (generateRefreshToken (C := Demo.deployment) (Demo.at_time 200) 8%N))
    /\ (toLowerCase "Bob" <> "Bob" ->
        loginUser (C := Demo.deployment) (Demo.at_time 200)
          {| login_email := None; login_username := Some "Bob";
             login_password := Some "builder" |} w1
        = (Threw (ApiError 404 "User does not exist"),
           logged [CallFindOne None (Some "Bob")] w1)).
Proof.
  apply (register_then_login (C := Demo.deployment) (Demo.at_time 100) (Demo.at_time 200)
           Cases.bob Demo.world0 "Bob" "bob@example.com" "Bob" "builder"
           "https://res.cloudinary.com/bob.png").
  - reflexivity.
  - reflexivity.
  - reflexivity.
  - reflexivity.
  - reflexivity.
  - repeat (constructor; [vm_compute; discriminate|]). constructor.
  - intros i v Hv. cbn in Hv. apply lookup_singleton_Some in Hv as [_ <-].
    repeat split; discriminate.
  - reflexivity.
  - reflexivity.
  - reflexivity.
  - reflexivity.
  - reflexivity.
  - reflexivity.
Defined.

(* ===================================================================== *)
(** ** Passwords and account details                                     *)
(* ===================================================================== *)

Section Accounts.
Context {C : Collaborators}.

Lemma nonempty_truthy s : s <> "" -> truthy (Some s) = true.
Proof. intros Hne. simpl. by apply negb_true_iff, String.eqb_neq. Qed.

Lemma matches_or_set_password e n h u :
  matches_or e n (set_password h u) = matches_or e n u.
Proof. done. Qed.

(** X16. After a password change that returns, a login that identifies
    the caller alone and gives the new password opens a session, and a
    login giving any non-empty password that the new hash does not match
    is answered with the 401 error: the old password no longer works
    unless it matches the new hash. *)
Theorem changePassword_then_login env env2 req w r w1 u new lreq p :
  changeCurrentPassword env req w = (Returned r, w1) ->
  users w !! req_user_id req = Some u ->
  newPassword req = Some new ->
  truthy (login_email lreq) || truthy (login_username lreq) = true ->
  login_email lreq = Some (email u) \/ login_username lreq = Some (username u) ->
  (forall j v, users w !! j = Some v ->
               login_email lreq = Some (email v) \/ login_username lreq = Some (username v) ->
               j = req_user_id req) ->
  login_password lreq = Some p ->
  p <> "" ->
  store_writable env2 = true ->
  (bcrypt_compare p (bcrypt_hash new) = true ->
   exists r2 w2, loginUser env2 lreq w1 = (Returned r2, w2))
  /\ (bcrypt_compare p (bcrypt_hash new) = false ->
      loginUser env2 lreq w1
      = (Threw (ApiError 401 "Invalid credentials"),
         logged [CallFindOne (login_email lreq) (login_username lreq)] w1)).
Proof.
  intros Hrun Hu Hnew Hident Hmatch Huniq Hp Hne Hw2.
  apply changePassword_returns_inv in Hrun as (u' & old & new' & Hu' & _ & _ & Hnew' & _ & Hw1).
  rewrite Hu in Hu'. injection Hu' as <-. rewrite Hnew in Hnew'. injection Hnew' as <-.
  assert (Hfind : first_match (login_email lreq) (login_username lreq) (users w1)
                  = Some (req_user_id req, set_password (bcrypt_hash new) u)).
  { rewrite Hw1. apply first_match_unique.
    - apply lookup_insert_eq.
    - rewrite matches_or_set_password. by apply matches_or_spec.
    - intros j v Hv Hmv. destruct (decide (req_user_id req = j)) as [<-|Hneq]; [done|].
      rewrite lookup_insert_ne in Hv by done. apply (Huniq j v Hv).
      by apply matches_or_spec. }
  split.
  - intros Hok.
    destruct (login_accepts env2 lreq w1 (req_user_id req)
                (set_password (bcrypt_hash new) u) p) as (r2 & w2 & Hrun2 & _); try done.
    eauto.
  - intros Hbad. rewrite loginUser_eq, Hp, (nonempty_truthy p Hne).
    assert (Hguard : negb (truthy (login_email lreq)) && negb (truthy (login_username lreq))
                     || negb true = false).
    { destruct (truthy (login_email lreq)), (truthy (login_username lreq)); done. }
    rewrite Hguard. cbv zeta. rewrite Hfind. simpl. by rewrite Hbad.
Qed.

(** X17. The new password is not checked for content and the save skips
    validation: a password change to the empty string returns, and from
    then on every login that identifies the caller ends in an error,
    because [loginUser] rejects an empty password and the hash of the
    empty string matches no other. *)
Theorem empty_new_password_locks_out env env2 req w r w1 lreq :
  changeCurrentPassword env req w = (Returned r, w1) ->
  newPassword req = Some "" ->
  (forall p, bcrypt_compare p (bcrypt_hash "") = true -> p = "") ->
  fst <$> first_match (login_email lreq) (login_username lreq) (users w1)
  = Some (req_user_id req) ->
  exists e w2, loginUser env2 lreq w1 = (Threw e, w2) /\ users w2 = users w1.
Proof.
  intros Hrun Hnew Hsound Hfind.
  apply changePassword_returns_inv in Hrun as (u & old & new & Hu & _ & _ & Hnew' & _ & Hw1).
  rewrite Hnew in Hnew'. injection Hnew' as <-.
  rewrite loginUser_eq.
  destruct (_ || _) eqn:Hguard; [eauto|]. cbv zeta.
  destruct (first_match _ _ _) as [[i v]|] eqn:Hfm; [|discriminate].
  simpl in Hfind. injection Hfind as ->.
  apply first_match_lookup in Hfm. rewrite Hw1, lookup_insert_eq in Hfm.
  injection Hfm as <-.
  destruct (login_password lreq) as [p|] eqn:Hp; [|eauto]. simpl.
  destruct (bcrypt_compare p (bcrypt_hash "")) eqn:Hcmp; [|eauto].
  apply Hsound in Hcmp as ->.
  apply orb_false_iff in Hguard as [_ Hguard]. simpl in Hguard. discriminate.
Qed.

(** Every path of [updateAccountDetails]. *)
Lemma updateAccountDetails_eq env req w :
  updateAccountDetails env req w =
  let id := acc_user_id req in
  match acc_fullName req, acc_email req with
  | Some fn, Some em =>
      if negb (truthy (Some fn)) || negb (truthy (Some em))
      then (Threw (ApiError 400 "All fields are required"), w)
      else if store_writable env then
        (Returned {| status := 200; cookies := [];
                     json := {| statusCode := 200;
                                data := DataUser
                                          (select "-password"
                                             <$> (toObject id
                                                    <$> alter (set_account fn em) id (users w)
                                                        !! id));
                                message := "Account details updated successfully." |} |},
         {| users := alter (set_account fn em) id (users w);
            calls := calls w ++ [CallFindByIdAndUpdate id] |})
      else (Threw (MongoError "write failed"), logged [CallFindByIdAndUpdate id] w)
  | _, _ => (Threw (ApiError 400 "All fields are required"), w)
  end.
Proof.
  unfold updateAccountDetails, logged. cbv zeta.
  destruct (acc_fullName req) as [fn|], (acc_email req) as [em|]; simpl;
    try (by destruct (negb _)); try done.
  destruct (negb _ || negb _); [done|].
  unfold_monad. simpl. by destruct (store_writable env).
Qed.

Lemma select_without_password (d : Doc) : select "-password" d = delete "password" d.
Proof. reflexivity. Qed.

(** An account update in which the full name or the email is absent
    or empty is answered with the 400 error before any call to the
    collection. *)
Theorem account_update_missing_field env req w :
  truthy (acc_fullName req) = false \/ truthy (acc_email req) = false ->
  updateAccountDetails env req w = (Threw (ApiError 400 "All fields are required"), w).
Proof.
  intros Hmissing. rewrite updateAccountDetails_eq. cbv zeta.
  destruct (acc_fullName req) as [fn|], (acc_email req) as [em|]; try done.
  destruct Hmissing as [->| ->]; simpl; [done|]. by rewrite orb_true_r.
Qed.

(** X18. An account update changes nothing but the full name and the
    email of the stored documents, and of no document but the caller's:
    passwords and refresh tokens stay, so every session survives it. *)
Theorem account_update_frame env req w id :
  set_account "" "" <$> (users (snd (updateAccountDetails env req w)) !! id)
  = set_account "" "" <$> (users w !! id)
  /\ (users (snd (updateAccountDetails env req w)) !! id = users w !! id
      \/ acc_user_id req = id).
Proof.
  rewrite updateAccountDetails_eq. cbv zeta.
  destruct (acc_fullName req) as [fn|], (acc_email req) as [em|]; simpl; auto.
  destruct (negb _ || negb _); simpl; auto.
  destruct (store_writable env); simpl; auto.
  destruct (decide (acc_user_id req = id)) as [<-|Hne].
  - rewrite lookup_alter_eq. split; [|by right]. by destruct (users w !! acc_user_id req).
  - rewrite lookup_alter_ne by done. auto.
Qed.

(** X19. The document an account update sends back is projected with
    the password removed only: it has no password key, it carries the new
    email, and when the caller holds a session it carries the stored
    refresh token. *)
Theorem account_update_returns_refresh_token env req w r w1 u t :
  updateAccountDetails env req w = (Returned r, w1) ->
  users w !! acc_user_id req = Some u ->
  refreshToken u = Some t ->
  exists d,
    returned_user r = Some d
    /\ d !! "password" = None
    /\ d !! "email" = VString <$> acc_email req
    /\ d !! "refreshToken" = Some (VToken t).
Proof.
  intros Hrun Hu Htok. rewrite updateAccountDetails_eq in Hrun. cbv zeta in Hrun.
  destruct (acc_fullName req) as [fn|], (acc_email req) as [em|]; try discriminate.
  destruct (negb _ || negb _); [discriminate|].
  destruct (store_writable env); [|discriminate].
  injection Hrun as <- <-. unfold returned_user. simpl.
  rewrite lookup_alter_eq, Hu. simpl. eexists. split; [reflexivity|].
  rewrite select_without_password. unfold toObject. simpl. rewrite Htok.
  split; [apply lookup_delete_eq|].
  rewrite !lookup_delete_ne by done. split.
  - rewrite !lookup_insert_ne by done. apply lookup_insert_eq.
  - apply lookup_insert_eq.
Qed.

End Accounts.

Lemma changePassword_then_login_witness :
  let w1 := snd (changeCurrentPassword (C := Demo.deployment) (Demo.at_time 200)
                   Demo.alice_new_password (Demo.logged_in 100)) in
  (String.eqb (Demo.hash "looking-glass") (Demo.hash "looking-glass") = true ->
   exists r2 w2,
     loginUser (C := Demo.deployment) (Demo.at_time 300) Demo.alice_wrong_password w1
     = (Returned r2, w2))
  /\ (String.eqb (Demo.hash "looking-glass") (Demo.hash "looking-glass") = false ->
      loginUser (C := Demo.deployment) (Demo.at_time 300) Demo.alice_wrong_password w1
      = (Threw (ApiError 401 "Invalid credentials"),
         logged [CallFindOne None (Some "alice")] w1)).
Proof.
  intros w1.
  eapply (changePassword_then_login (C := Demo.deployment) (Demo.at_time 200)
            (Demo.at_time 300) Demo.alice_new_password (Demo.logged_in 100) _ w1
            (set_refreshToken (Some (Demo.alice_token 100)) Demo.alice) "looking-glass"
            Demo.alice_wrong_password "looking-glass").
  - vm_compute. reflexivity.
  - reflexivity.
  - reflexivity.
  - reflexivity.
  - right. reflexivity.
  - intros j v Hv _. cbn in Hv. by apply lookup_singleton_Some in Hv as [<- _].
  - reflexivity.
  - discriminate.
  - reflexivity.
Defined.

Lemma empty_new_password_locks_out_witness :
  exists e w2,
    loginUser (C := Demo.deployment) (Demo.at_time 300) Demo.alice_login
      (snd (changeCurrentPassword (C := Demo.deployment) (Demo.at_time 200)
              {| req_user_id := Demo.alice_id; oldpassword := Some "wonderland";
                 newPassword := Some "" |} (Demo.logged_in 100)))
    = (Threw e, w2)
    /\ users w2
       = users (snd (changeCurrentPassword (C := Demo.deployment) (Demo.at_time 200)
                       {| req_user_id := Demo.alice_id; oldpassword := Some "wonderland";
                          newPassword := Some "" |} (Demo.logged_in 100))).
Proof.
  eapply (empty_new_password_locks_out (C := Demo.deployment) (Demo.at_time 200)
            (Demo.at_time 300)
            {| req_user_id := Demo.alice_id; oldpassword := Some "wonderland";
               newPassword := Some "" |} (Demo.logged_in 100)).
  - vm_compute. reflexivity.
  - reflexivity.
  - intros p Hp. cbn in Hp. apply String.eqb_eq in Hp. by injection Hp.
  - vm_compute. reflexivity.
Defined.

Lemma account_update_missing_field_witness :
  updateAccountDetails (Demo.at_time 100)
    {| acc_user_id := Demo.alice_id; acc_fullName := Some "Alice L.";
       acc_email := Some "" |} Demo.world0
  = (Threw (ApiError 400 "All fields are required"), Demo.world0).
Proof.
  apply (account_update_missing_field (Demo.at_time 100)
           {| acc_user_id := Demo.alice_id; acc_fullName := Some "Alice L.";
              acc_email := Some "" |} Demo.world0).
  right. reflexivity.
Defined.

Lemma account_update_returns_refresh_token_witness :
  exists r w1,
    updateAccountDetails (Demo.at_time 200)
      {| acc_user_id := Demo.alice_id; acc_fullName := Some "Alice L.";
         acc_email := Some "al@example.com" |} (Demo.logged_in 100) = (Returned r, w1)
    /\ exists d,
         returned_user r = Some d
         /\ d !! "password" = None
         /\ d !! "email" = VString <$> Some "al@example.com"
         /\ d !! "refreshToken" = Some (VToken (Demo.alice_token 100)).
Proof.
  eexists _, _. split; [vm_compute; reflexivity|].
  eapply (account_update_returns_refresh_token (Demo.at_time 200)
            {| acc_user_id := Demo.alice_id; acc_fullName := Some "Alice L.";
               acc_email := Some "al@example.com" |} (Demo.logged_in 100) _ _
            (set_refreshToken (Some (Demo.alice_token 100)) Demo.alice)
            (Demo.alice_token 100)).
  - vm_compute. reflexivity.
  - reflexivity.
  - reflexivity.
Defined.

(* ===================================================================== *)
(** ** Avatar and cover image                                            *)
(* ===================================================================== *)

Ltac unfold_media :=
  unfold with_store, destroy, mbind, MediaHandler_bind, mret, MediaHandler_ret;
  unfold_monad.

Section MediaProperties.
Context {C : Collaborators}.

(** X20. As mounted, behind [upload.single], the two media routes never
    answer with a response: the middleware leaves [req.files] unset, the
    handlers read the file from [req.files], so whatever is uploaded the
    handler ends with its "missing file" 400 error, having called neither
    the collection nor the media store. *)
Theorem media_routes_never_succeed env caller parts m :
  (avatar_route env caller parts m = None
   \/ avatar_route env caller parts m
      = Some (Threw (ApiError 400 "Avatar file is missing."), m))
  /\ (cover_image_route env caller parts m = None
      \/ cover_image_route env caller parts m
         = Some (Threw (ApiError 400 "Cover image is missing."), m)).
Proof.
  unfold avatar_route, cover_image_route, upload_single.
  destruct parts as [|p [|q rest]]; simpl.
  - split; right; by destruct m.
  - split; (destruct (String.eqb (part_field p) _); [right; by destruct m|by left]).
  - split; by left.
Qed.

(** X21. When the request carries an avatar file that uploads, the
    caller's document exists with an avatar and the store accepts writes,
    the handler hands the public id of the old avatar to the media store,
    sets the avatar of the caller's document to the new URL and touches
    nothing else; the document it sends back has the new avatar and no
    password, and keeps whatever refresh token is stored. *)
Theorem avatar_update_replaces_asset env req m path u url :
  local_path "avatar" (req_files req) = Some path ->
  path <> "" ->
  users (world m) !! files_user_id req = Some u ->
  avatar u <> "" ->
  uploadOnCloudinary (Some path) = Some url ->
  url <> "" ->
  store_writable env = true ->
  exists r m' d,
    updateUserAvater env req m = (Returned r, m')
    /\ destroyed m' = (destroyed m ++ [public_id_of (avatar u)])%list
    /\ users (world m') = <[files_user_id req := set_avatar url u]> (users (world m))
    /\ returned_user r = Some d
    /\ d !! "avatar" = Some (VString url)
    /\ d !! "password" = None
    /\ d !! "refreshToken" = VToken <$> refreshToken u.
Proof.
  intros Hpath Hne Hu Hav Hup Hurl Hw.
  unfold updateUserAvater. rewrite Hpath, (nonempty_truthy path Hne). simpl negb. cbv iota.
  apply String.eqb_neq in Hav.
  unfold_media. simpl. rewrite Hu. simpl. rewrite Hav. simpl.
  rewrite Hup, (nonempty_truthy url Hurl), Hw. simpl.
  rewrite lookup_alter_eq, Hu. simpl.
  eexists _, _, _. split; [reflexivity|]. simpl. split; [done|]. split.
  { apply map_eq. intros j. destruct (decide (files_user_id req = j)) as [<-|Hj].
    - by rewrite lookup_alter_eq, lookup_insert_eq, Hu.
    - by rewrite lookup_alter_ne, lookup_insert_ne. }
  unfold returned_user. simpl. split; [reflexivity|].
  rewrite select_without_password. unfold toObject. simpl.
  split; [|split; [apply lookup_delete_eq|]].
  - rewrite lookup_delete_ne by done.
    destruct (refreshToken u); rewrite !lookup_insert_ne by done; apply lookup_insert_eq.
  - rewrite lookup_delete_ne by done.
    destruct (refreshToken u); simpl; [apply lookup_insert_eq|].
    by rewrite !lookup_insert_ne.
Qed.

(** X22. The old avatar is destroyed before the new one is uploaded.
    When the upload then fails, the handler ends with the 400 error, the
    old asset is gone from the media store, and the caller's document
    still names it. *)
Theorem avatar_upload_failure_leaves_dangling_url env req m path u :
  local_path "avatar" (req_files req) = Some path ->
  path <> "" ->
  users (world m) !! files_user_id req = Some u ->
  avatar u <> "" ->
  truthy (uploadOnCloudinary (Some path)) = false ->
  exists m',
    updateUserAvater env req m
    = (Threw (ApiError 400 "Error while uploading avatar."), m')
    /\ destroyed m' = (destroyed m ++ [public_id_of (avatar u)])%list
    /\ users (world m') = users (world m).
Proof.
  intros Hpath Hne Hu Hav Hup.
  unfold updateUserAvater. rewrite Hpath, (nonempty_truthy path Hne). simpl negb. cbv iota.
  apply String.eqb_neq in Hav.
  unfold_media. simpl. rewrite Hu. simpl. rewrite Hav. simpl.
  rewrite Hup. simpl. eauto.
Qed.

(** X23. The cover image handler does the same in the same order, but
    reports the failed upload as a 500 error where the avatar handler
    reports a 400; a document without a cover image has nothing
    destroyed. *)
Theorem cover_upload_failure env req m path u :
  local_path "coverImage" (req_files req) = Some path ->
  path <> "" ->
  users (world m) !! files_user_id req = Some u ->
  truthy (uploadOnCloudinary (Some path)) = false ->
  exists m',
    updateUserCoverImage env req m
    = (Threw (ApiError 500 "Error while uploading cover image."), m')
    /\ destroyed m'
       = (destroyed m ++ if String.eqb (coverImage u) "" then []
                         else [public_id_of (coverImage u)])%list
    /\ users (world m') = users (world m).
Proof.
  intros Hpath Hne Hu Hup.
  unfold updateUserCoverImage. rewrite Hpath, (nonempty_truthy path Hne). simpl negb. cbv iota.
  unfold_media. simpl. rewrite Hu. simpl.
  destruct (String.eqb (coverImage u) ""); simpl; rewrite Hup; simpl.
  - rewrite app_nil_r. eauto.
  - eauto.
Qed.

End MediaProperties.

Lemma avatar_update_replaces_asset_witness :
  exists r m' d,
    updateUserAvater (C := Demo.deployment) (Demo.at_time 100) (Cases.carol_avatar "new.png")
      Cases.media0 = (Returned r, m')
    /\ destroyed m' = (destroyed Cases.media0 ++ [public_id_of (avatar Cases.carol)])%list
    /\ users (world m')
       = <[Cases.carol_id := set_avatar "https://res.cloudinary.com/new.png" Cases.carol]>
           (users (world Cases.media0))
    /\ returned_user r = Some d
    /\ d !! "avatar" = Some (VString "https://res.cloudinary.com/new.png")
    /\ d !! "password" = None
    /\ d !! "refreshToken" = VToken <$> refreshToken Cases.carol.
Proof.
  apply (avatar_update_replaces_asset (C := Demo.deployment) (Demo.at_time 100)
           (Cases.carol_avatar "new.png") Cases.media0 "new.png" Cases.carol
           "https://res.cloudinary.com/new.png").
  - reflexivity.
  - discriminate.
  - vm_compute. reflexivity.
  - discriminate.
  - reflexivity.
  - discriminate.
  - reflexivity.
Defined.

Lemma avatar_upload_failure_leaves_dangling_url_witness :
  exists m',
    updateUserAvater (C := Cases.media_down) (Demo.at_time 100) (Cases.carol_avatar "new.png")
      Cases.media0
    = (Threw (ApiError 400 "Error while uploading avatar."), m')
    /\ destroyed m' = (destroyed Cases.media0 ++ [public_id_of (avatar Cases.carol)])%list
    /\ users (world m') = users (world Cases.media0).
Proof.
  apply (avatar_upload_failure_leaves_dangling_url (C := Cases.media_down) (Demo.at_time 100)
           (Cases.carol_avatar "new.png") Cases.media0 "new.png" Cases.carol).
  - reflexivity.
  - discriminate.
  - vm_compute. reflexivity.
  - discriminate.
  - reflexivity.
Defined.

Lemma cover_upload_failure_witness :
  exists m',
    updateUserCoverImage (C := Cases.media_down) (Demo.at_time 100)
      (Cases.carol_cover "cover.png") Cases.media0
    = (Threw (ApiError 500 "Error while uploading cover image."), m')
    /\ destroyed m'
       = (destroyed Cases.media0 ++ if String.eqb (coverImage Cases.carol) "" then []
                                    else [public_id_of (coverImage Cases.carol)])%list
    /\ users (world m') = users (world Cases.media0).
Proof.
  apply (cover_upload_failure (C := Cases.media_down) (Demo.at_time 100)
           (Cases.carol_cover "cover.png") Cases.media0 "cover.png" Cases.carol).
  - reflexivity.
  - discriminate.
  - vm_compute. reflexivity.
  - reflexivity.
Defined.

(* ===================================================================== *)
(** ** The channel profile                                               *)
(* ===================================================================== *)

Lemma trim_blank_lower s : String.eqb (trim (toLowerCase s)) "" = String.eqb (trim s) "".
Proof. by rewrite trim_lower, toLowerCase_empty. Qed.

(** The first document of the aggregation is the channel of a stored
    user of that name. *)
Lemma aggregate_channel_first caller name (m : gmap N User) subs first rest :
  aggregate_channel caller name m subs = first :: rest ->
  exists id u, m !! id = Some u /\ username u = name
               /\ first = channel_of caller subs id u.
Proof.
  unfold aggregate_channel.
  assert (Hall : forall iu, In iu (map_to_list m) -> m !! fst iu = Some (snd iu)).
  { intros [i u] Hin. by apply list_elem_of_In, elem_of_map_to_list in Hin. }
  revert Hall. generalize (map_to_list m) as l.
  induction l as [|[i u] l IH]; simpl; intros Hall Hfirst; [done|].
  destruct (String.eqb_spec (username u) name) as [Hname|Hname].
  - simpl in Hfirst. injection Hfirst as <- _. exists i, u.
    split; [apply (Hall (i, u)); by left|done].
  - apply IH; [|done]. intros iu Hin. apply Hall. by right.
Qed.

Lemma aggregate_channel_none caller name (m : gmap N User) subs :
  (forall i u, m !! i = Some u -> username u <> name) ->
  aggregate_channel caller name m subs = [].
Proof.
  intros Hnone. destruct (aggregate_channel caller name m subs) as [|first rest] eqn:Hagg;
    [done|].
  apply aggregate_channel_first in Hagg as (id & u & Hu & Hname & _).
  by destruct (Hnone id u Hu).
Qed.

(** X24. The channel lookup ignores the case of the requested name: a
    name and its lower-case form get the same answer, error or
    profile. *)
Theorem channel_lookup_ignores_case caller name m subs :
  getUserChannelProfile caller (Some name) m subs
  = getUserChannelProfile caller (Some (toLowerCase name)) m subs.
Proof.
  unfold getUserChannelProfile. by rewrite trim_blank_lower, toLowerCase_idem.
Qed.

(** X25. The profile sent back for a name written in ASCII is that of a
    stored user whose username is the lower-case form of the requested
    name. The pipeline removes the password and nothing else: whoever the
    caller is, the profile has no password key and carries the refresh
    token stored for the channel owner, if there is one. *)
Theorem channel_profile_fields caller name m subs r :
  is_ascii name = true ->
  getUserChannelProfile caller (Some name) m subs = Returned r ->
  exists id u,
    m !! id = Some u
    /\ username u = toLowerCase name
    /\ channel_fields (channel_data r) !! "_id" = Some (VId id)
    /\ channel_fields (channel_data r) !! "password" = None
    /\ channel_fields (channel_data r) !! "refreshToken" = VToken <$> refreshToken u.
Proof.
  intros _.
  unfold getUserChannelProfile. destruct (String.eqb (trim name) ""); [done|].
  destruct (aggregate_channel _ _ _ _) as [|first rest] eqn:Hagg; [done|].
  intros [= <-]. simpl.
  apply aggregate_channel_first in Hagg as (id & u & Hu & Hname & ->).
  exists id, u. split; [done|]. split; [done|]. simpl. unfold toObject.
  split; [|split; [apply lookup_delete_eq|]].
  - rewrite lookup_delete_ne by done.
    destruct (refreshToken u); [rewrite lookup_insert_ne by done|]; apply lookup_insert_eq.
  - rewrite lookup_delete_ne by done.
    destruct (refreshToken u); simpl; [apply lookup_insert_eq|].
    by rewrite !lookup_insert_ne.
Qed.

(** X26. In the profile sent back, [isSubscribed] is true exactly when
    the subscriptions hold one from the caller to this channel, and then
    the subscriber count is at least one; the two counts are the lengths
    of the two lists the profile carries. *)
Theorem channel_subscription_facts caller name m subs r :
  getUserChannelProfile caller (Some name) m subs = Returned r ->
  exists id,
    channel_fields (channel_data r) !! "_id" = Some (VId id)
    /\ (isSubscribed (channel_data r) = true <->
        exists me, caller = Some me /\ In {| subscriber := me; channel := id |} subs)
    /\ (isSubscribed (channel_data r) = true -> (0 < subscribersCount (channel_data r))%nat)
    /\ subscribersCount (channel_data r) = List.length (subscribers (channel_data r))
    /\ channelsSubscribedToCount (channel_data r)
       = List.length (subscribedTo (channel_data r))
    /\ Forall (fun s => channel s = id /\ In s subs) (subscribers (channel_data r)).
Proof.
  unfold getUserChannelProfile. destruct (String.eqb (trim name) ""); [done|].
  destruct (aggregate_channel _ _ _ _) as [|first rest] eqn:Hagg; [done|].
  intros [= <-]. simpl.
  apply aggregate_channel_first in Hagg as (id & u & Hu & Hname & ->).
  exists id. simpl.
  assert (Hid : delete "password" (toObject id u) !! "_id" = Some (VId id)).
  { rewrite lookup_delete_ne by done. unfold toObject.
    destruct (refreshToken u); [rewrite lookup_insert_ne by done|]; apply lookup_insert_eq. }
  assert (Hiff : match caller with
                 | Some me => existsb (fun s => N.eqb (subscriber s) me)
                                (List.filter (fun s => N.eqb (channel s) id) subs)
                 | None => false
                 end = true <->
                 exists me, caller = Some me
                            /\ In {| subscriber := me; channel := id |} subs).
  { destruct caller as [me|].
    - rewrite existsb_exists. split.
      + intros ([sb ch] & Hin & Hme). apply filter_In in Hin as [Hin Hch]. simpl in *.
        apply N.eqb_eq in Hme, Hch. subst. eauto.
      + intros (me' & [= <-] & Hin). exists {| subscriber := me; channel := id |}.
        rewrite filter_In. simpl. by rewrite !N.eqb_refl.
    - split; [done|]. by intros (me & ? & _). }
  split; [done|]. split; [done|]. split.
  { intros Hsub. destruct caller as [me|]; [|done].
    apply existsb_exists in Hsub as (s & Hin & _).
    destruct (List.filter _ subs); [done|]. simpl. lia. }
  split; [done|]. split; [done|].
  apply List.Forall_forall. intros s Hin. apply filter_In in Hin as [Hin Hch].
  by apply N.eqb_eq in Hch.
Qed.

(** X27. A channel request whose name is absent, or of which trimming
    leaves nothing, is answered with the 400 error; one whose name is
    written in ASCII, has more than white space in it and, put in lower
    case, is the username of no stored user, with the 404 error. *)
Theorem channel_profile_errors caller m subs :
  getUserChannelProfile caller None m subs = Threw (ApiError 400 "Username is missing.")
  /\ (forall name,
        trim name = "" ->
        getUserChannelProfile caller (Some name) m subs
        = Threw (ApiError 400 "Username is missing."))
  /\ (forall name,
        is_ascii name = true ->
        trim name <> "" ->
        (forall i u, m !! i = Some u -> username u <> toLowerCase name) ->
        getUserChannelProfile caller (Some name) m subs
        = Threw (ApiError 404 "Channel not found.")).
Proof.
  split; [done|]. split.
  - intros name Hblank. unfold getUserChannelProfile. by rewrite Hblank.
  - intros name _ Hname Hnone. unfold getUserChannelProfile.
    apply String.eqb_neq in Hname.
    by rewrite Hname, (aggregate_channel_none _ _ _ _ Hnone).
Qed.

Lemma channel_profile_fields_witness :
  exists r,
    getUserChannelProfile (Some Demo.alice_id) (Some "Carol") (users Cases.two_users)
      Cases.subscriptions = Returned r
    /\ exists id u,
         users Cases.two_users !! id = Some u
         /\ username u = toLowerCase "Carol"
         /\ channel_fields (channel_data r) !! "_id" = Some (VId id)
         /\ channel_fields (channel_data r) !! "password" = None
         /\ channel_fields (channel_data r) !! "refreshToken" = VToken <$> refreshToken u.
Proof.
  eexists. split; [vm_compute; reflexivity|].
  eapply (channel_profile_fields (Some Demo.alice_id) "Carol" (users Cases.two_users)
            Cases.subscriptions).
  - reflexivity.
  - vm_compute. reflexivity.
Defined.

Lemma channel_subscription_facts_witness :
  exists r,
    getUserChannelProfile (Some Demo.alice_id) (Some "Carol") (users Cases.two_users)
      Cases.subscriptions = Returned r
    /\ isSubscribed (channel_data r) = true
    /\ subscribersCount (channel_data r) = 2%nat
    /\ exists id,
         channel_fields (channel_data r) !! "_id" = Some (VId id)
         /\ (isSubscribed (channel_data r) = true <->
             exists me, Some Demo.alice_id = Some me
                        /\ In {| subscriber := me; channel := id |} Cases.subscriptions)
         /\ (isSubscribed (channel_data r) = true ->
             (0 < subscribersCount (channel_data r))%nat)
         /\ subscribersCount (channel_data r) = List.length (subscribers (channel_data r))
         /\ channelsSubscribedToCount (channel_data r)
            = List.length (subscribedTo (channel_data r))
         /\ Forall (fun s => channel s = id /\ In s Cases.subscriptions)
              (subscribers (channel_data r)).
Proof.
  eexists. split; [vm_compute; reflexivity|]. split; [reflexivity|]. split; [reflexivity|].
  eapply (channel_subscription_facts (Some Demo.alice_id) "Carol" (users Cases.two_users)
            Cases.subscriptions).
  vm_compute. reflexivity.
Defined.

Lemma channel_profile_errors_witness :
  getUserChannelProfile (Some Demo.alice_id) None (users Cases.two_users) Cases.subscriptions
  = Threw (ApiError 400 "Username is missing.")
  /\ getUserChannelProfile (Some Demo.alice_id) (Some "  ") (users Cases.two_users)
       Cases.subscriptions
     = Threw (ApiError 400 "Username is missing.")
  /\ getUserChannelProfile (Some Demo.alice_id) (Some no_break_space)
       (users Cases.two_users) Cases.subscriptions
     = Threw (ApiError 400 "Username is missing.")
  /\ getUserChannelProfile (Some Demo.alice_id) (Some "Dinah") (users Cases.two_users)
       Cases.subscriptions
     = Threw (ApiError 404 "Channel not found.").
Proof.
  destruct (channel_profile_errors (Some Demo.alice_id) (users Cases.two_users)
              Cases.subscriptions) as (Habsent & Hblank & Hunknown).
  split; [exact Habsent|]. split; [|split].
  - apply Hblank. reflexivity.
  - apply Hblank. reflexivity.
  - apply Hunknown; [reflexivity|discriminate|].
    intros i u Hu. cbn in Hu.
    apply lookup_insert_Some in Hu as [[_ <-]|[_ Hu]]; [discriminate|].
    apply lookup_singleton_Some in Hu as [_ <-]. discriminate.
Defined.
